(** * rebound-bot: the decision-and-execution core of the trading bot

    A shallow embedding of [trading-bot.go] and [structs.go]:

    - [float64] values are Rocq's primitive binary64 floats, so every
      comparison and every arithmetic operation rounds as the Go code does;
    - Go's [int] and [int64] are integers in [Z], wrapped to 64 bits where the
      code does arithmetic on them;
    - the exchange (HTTP round trips to Binance) is an oracle that answers
      each request from the history of events so far; requests and sleeps
      are appended to an event log, which is how "zero gateway calls" and
      "exactly three attempts" are stated;
    - [strconv.ParseFloat] and the result of an out-of-range [int64(f)]
      conversion belong to the Go runtime, not to this repository: they are
      the two fields of the class [Runtime].  A reference instance
      ([goRuntime]) is given for concrete evaluation. *)

From Stdlib Require Import ZArith List String Ascii Bool Lia Floats Reals Lra Psatz.
Import ListNotations.

Local Open Scope string_scope.
Local Open Scope list_scope.
Local Open Scope Z_scope.

(** ** Go scalars *)

(** Go's [int64] (and [int] on the 64-bit targets the bot is built for). *)
Definition int64_min : Z := - 2 ^ 63.
Definition int64_max : Z := 2 ^ 63 - 1.

Definition in_int64 (z : Z) : bool := (int64_min <=? z) && (z <=? int64_max).

(** Two's complement wrap-around, as [NextPositionID++] performs it. *)
Definition wrap64 (z : Z) : Z := (z + 2 ^ 63) mod 2 ^ 64 - 2 ^ 63.

(** The integer part of a float, rounded toward zero; [None] for NaN and the
    infinities. *)
Definition SFtrunc (x : spec_float) : option Z :=
  match x with
  | S754_zero _ => Some 0
  | S754_finite s m e => Some (cond_Zopp s (Z.shiftl (Zpos m) e))
  | S754_infinity _ | S754_nan => None
  end.

(** [float64(n)] for an integer [n]: the nearest binary64 value, ties to even. *)
Definition float64_of_int (n : Z) : float :=
  SF2Prim (binary_normalize prec emax n 0 false).

Definition not_finite (x : spec_float) : Prop :=
  match x with S754_finite _ _ _ => False | _ => True end.


(** The result of rounding to nearest when the rounded mantissa is [m2] at
    exponent [e]: a carry into bit 54 moves to the next exponent, and an
    exponent above 971 gives an infinity. *)
Definition rounded (sx : bool) (m2 e : Z) : spec_float :=
  if m2 <? 2 ^ 53 then
    if e <=? 971 then S754_finite sx (Z.to_pos m2) e else S754_infinity sx
  else
    if e + 1 <=? 971 then S754_finite sx (Z.to_pos (2 ^ 52)) (e + 1) else S754_infinity sx.

(** Real values of binary64 numbers. *)
Definition bpow (e : Z) : R := powerRZ 2%R e.

Definition F2R (m e : Z) : R := (IZR m * bpow e)%R.

(** Neither NaN nor an infinity. *)
Definition SFfinite (x : spec_float) : Prop :=
  match x with
  | S754_finite _ _ _ | S754_zero _ => True
  | S754_infinity _ | S754_nan => False
  end.

(** Errors are Go [error] values; only their message is kept. *)
Inductive Result (A : Type) : Type :=
| Ok (a : A)
| Err (msg : string).
Arguments Ok {A} a.
Arguments Err {A} msg.

Definition is_ok {A} (r : Result A) : bool :=
  match r with Ok _ => true | Err _ => false end.

(** What the repository takes from the Go runtime. *)
Class Runtime : Type := {
  (** [strconv.ParseFloat(s, 64)]: the value returned, and the error if any.
      On a syntax error Go returns 0 together with the error. *)
  ParseFloat : string -> float * option string;
  (** [int64(f)] when [f] is NaN, infinite or outside the range of [int64]:
      the Go specification leaves the result to the implementation. *)
  int64_unrepresentable : float -> Z
}.

(** ** structs.go *)

Record TradingPosition : Type := {
  ID : Z;
  Symbol : string;
  BuyPrice : float;
  Quantity : float;
  InvestedAmount : float;
  TargetSellPrice : float;
  BuyTime : nat;            (* logical time: the number of events logged so far *)
  DropPercentage : float;
  CurrentValue : float;
  SellOrderID : Z;          (* Binance sell order ID (0 if no order placed) *)
  HasActiveSellOrder : bool
}.

Record BinanceConfig : Type := {
  APIKey : string;
  SecretKey : string;
  BaseURL : string
}.

Record Fill : Type := {
  fillPrice : string;
  fillQty : string;
  fillCommission : string;
  fillCommissionAsset : string
}.

Record OrderResponse : Type := {
  respSymbol : string;
  OrderID : Z;
  ClientOrderID : string;
  TransactTime : Z;
  respPrice : string;
  OrigQty : string;
  ExecutedQty : string;
  Status : string;
  respType : string;
  Side : string;
  Fills : list Fill
}.

Record OptimizedTicker : Type := {
  tickerSymbol : string;
  LastPrice : float;
  PriceChangePercent : float;
  PercentChange24h : float
}.

(** [CompletedTrades], [Stats] and [StartTime] are never read or written by
    the functions embedded here and are left out. *)
Record TradingBot : Type := {
  TotalBudget : float;
  AvailableBudget : float;
  InvestmentAmount : float;
  Positions : list TradingPosition;
  WatchList : list OptimizedTicker;
  NextPositionID : Z;
  Config : BinanceConfig
}.

(** ** trading-bot.go: types *)

Record SymbolFilters : Type := {
  StepSize : string;
  TickSize : string
}.

(** The five decision zones the analysis reports, by the label it prints. *)
Inductive Signal : Type := SKIP | WATCH | BUY | HOLD | RISKY.

(** ** The outside world *)

Inductive Event : Type :=
| EvMarketBuy (symbol : string) (quoteOrderQty : float)
| EvExchangeInfo (symbol : string)
| EvLimitSell (symbol : string) (quantity price : float)
| EvSleep (seconds : nat)
| EvSignal (s : Signal) (symbol : string).

(** The exchange answers a request from everything that happened before it. *)
Record Exchange : Type := {
  marketBuy : list Event -> string -> float -> Result OrderResponse;
  exchangeInfo : list Event -> string -> Result SymbolFilters;
  limitSell : list Event -> string -> float -> float -> Result OrderResponse
}.

Definition is_gateway_call (e : Event) : bool :=
  match e with
  | EvMarketBuy _ _ | EvExchangeInfo _ | EvLimitSell _ _ _ => true
  | EvSleep _ | EvSignal _ _ => false
  end.

Definition is_limit_sell (e : Event) : bool :=
  match e with EvLimitSell _ _ _ => true | _ => false end.

Definition is_market_buy (e : Event) : bool :=
  match e with EvMarketBuy _ _ => true | _ => false end.

Definition gateway_calls (log : list Event) : nat :=
  List.length (filter is_gateway_call log).

(** The bot ([*TradingBot], mutated in place) and the log of events, oldest
    first. *)
Record State : Type := {
  bot : TradingBot;
  log : list Event
}.

(** ** A state monad for the bot's methods *)

Definition M (A : Type) : Type := State -> A * State.

Definition ret {A} (a : A) : M A := fun s => (a, s).

Definition bind {A B} (m : M A) (k : A -> M B) : M B :=
  fun s => let (a, s') := m s in k a s'.

Notation "x <- m ;; k" := (bind m (fun x => k))
  (at level 61, m at next level, right associativity).
Notation "m ;; k" := (bind m (fun _ => k))
  (at level 61, right associativity).

Definition getBot : M TradingBot := fun s => (bot s, s).
Definition getLog : M (list Event) := fun s => (log s, s).
Definition setBot (b : TradingBot) : M unit :=
  fun s => (tt, {| bot := b; log := log s |}).
Definition emit (e : Event) : M unit :=
  fun s => (tt, {| bot := bot s; log := log s ++ [e] |}).

(** [time.Sleep(n * time.Second)] *)
Definition sleep (seconds : nat) : M unit := emit (EvSleep seconds).

Definition when (c : bool) (m : M unit) : M unit := if c then m else ret tt.

Fixpoint forEach {A} (xs : list A) (body : A -> M unit) : M unit :=
  match xs with
  | [] => ret tt
  | x :: rest => body x ;; forEach rest body
  end.

Definition exec {A} (m : M A) (s : State) : State := snd (m s).
Definition eval {A} (m : M A) (s : State) : A := fst (m s).

(** ** trading-bot.go: functions *)

Section Bot.

Context {RT : Runtime}.
Variable exchange : Exchange.

Local Open Scope float_scope.

(** [int64(f)]: truncation toward zero. *)
Definition int64_of_float (f : float) : Z :=
  match SFtrunc (Prim2SF f) with
  | Some z => if in_int64 z then z else int64_unrepresentable f
  | None => int64_unrepresentable f
  end.

(** [NewTradingBot], once the API keys were found in the environment. *)
Definition NewTradingBot (budget : float) (cfg : BinanceConfig) : Result TradingBot :=
  if (String.eqb (APIKey cfg) "" || String.eqb (SecretKey cfg) "")%bool
  then Err "BINANCE API KEYS REQUIRED!"
  else Ok {| TotalBudget := budget;
             AvailableBudget := budget;
             InvestmentAmount := 7.0;
             Positions := [];
             WatchList := [];
             NextPositionID := 1;
             Config := cfg |}.

(** [getSymbolFilters]: one unsigned GET to the exchange. *)
Definition getSymbolFilters (symbol : string) : M (Result SymbolFilters) :=
  history <- getLog ;;
  emit (EvExchangeInfo symbol) ;;
  ret (exchangeInfo exchange history symbol).

(** [roundToTickSize] rounds a price to the correct tick size for Binance. *)
Definition roundToTickSize (price : float) (tickSize : string) : float :=
  let (tick, err) := ParseFloat tickSize in
  match err with
  | Some _ => price
  | None =>
      if tick <=? 0 then price
      else float64_of_int (int64_of_float (price / tick + 0.5)) * tick
  end.

(** The guard that opens every signed request:
    [APIKey == "" || SecretKey == ""] is the failure case. *)
Definition credentialsConfigured (b : TradingBot) : bool :=
  negb (String.eqb (APIKey (Config b)) "" || String.eqb (SecretKey (Config b)) "").

(** [executeBuyOrder] places a market buy order; without credentials it
    fails before any request is sent. *)
Definition executeBuyOrder (symbol : string) (quoteOrderQty : float)
  : M (Result OrderResponse) :=
  b <- getBot ;;
  if negb (credentialsConfigured b)
  then ret (Err "Binance API credentials not configured")
  else
    history <- getLog ;;
    emit (EvMarketBuy symbol quoteOrderQty) ;;
    ret (marketBuy exchange history symbol quoteOrderQty).

(** [executeLimitSellOrder] places a GTC limit sell order. *)
Definition executeLimitSellOrder (symbol : string) (quantity price : float)
  : M (Result OrderResponse) :=
  b <- getBot ;;
  if negb (credentialsConfigured b)
  then ret (Err "Binance API credentials not configured")
  else
    history <- getLog ;;
    emit (EvLimitSell symbol quantity price) ;;
    ret (limitSell exchange history symbol quantity price).

(** The loop over [orderResp.Fills] in [executeBuy]: the running
    [totalValue] and [totalQty].  Parse errors are dropped ([_]), so an
    unparsable field counts as the value [ParseFloat] returned with it. *)
Fixpoint sumFills (fills : list Fill) (totalValue totalQty : float) : float * float :=
  match fills with
  | [] => (totalValue, totalQty)
  | fill :: rest =>
      let fillPrice := fst (ParseFloat (fillPrice fill)) in
      let fillQty := fst (ParseFloat (fillQty fill)) in
      sumFills rest (totalValue + fillPrice * fillQty) (totalQty + fillQty)
  end.

(** The average fill price of [executeBuy], with its fallback to the
    snapshot's last price. *)
Definition averageFillPrice (orderResp : OrderResponse) (coin : OptimizedTicker) : float :=
  let avgPrice :=
    match Fills orderResp with
    | [] => 0
    | fills =>
        let (totalValue, totalQty) := sumFills fills 0 0 in
        if 0 <? totalQty then totalValue / totalQty else 0
    end in
  if avgPrice =? 0 then LastPrice coin (* Fallback *) else avgPrice.

(** The retry loop of [executeBuy] ([for retry := 1; retry <= maxRetries;
    retry++]), with [remaining = maxRetries - retry + 1] attempts still
    allowed.  It stops at the first success ([break]) and sleeps two seconds
    after a failure unless that was the last attempt.  The code runs it with
    [maxRetries = 3]. *)
Fixpoint placeSellWithRetry (remaining : nat) (symbol : string)
    (quantity price : float) : M (Result OrderResponse) :=
  match remaining with
  | O => ret (Err "")
  | S rest =>
      r <- executeLimitSellOrder symbol quantity price ;;
      match r with
      | Ok sellOrderResp => ret (Ok sellOrderResp)
      | Err sellErr =>
          match rest with
          | O => ret (Err sellErr)
          | S _ => sleep 2 ;; placeSellWithRetry rest symbol quantity price
          end
      end
  end.

Definition maxRetries : nat := 3.

Definition withSellOrder (position : TradingPosition) (sellOrderID : Z)
    (roundedSellPrice : float) : TradingPosition :=
  {| ID := ID position;
     Symbol := Symbol position;
     BuyPrice := BuyPrice position;
     Quantity := Quantity position;
     InvestedAmount := InvestedAmount position;
     TargetSellPrice := roundedSellPrice;
     BuyTime := BuyTime position;
     DropPercentage := DropPercentage position;
     CurrentValue := CurrentValue position;
     SellOrderID := sellOrderID;
     HasActiveSellOrder := true |}.

(** The three closing assignments of [executeBuy]: append the position,
    [AvailableBudget -= InvestmentAmount], [NextPositionID++]. *)
Definition recordedBot (b : TradingBot) (position : TradingPosition) : TradingBot :=
  {| TotalBudget := TotalBudget b;
     AvailableBudget := AvailableBudget b - InvestmentAmount b;
     InvestmentAmount := InvestmentAmount b;
     Positions := Positions b ++ [position];
     WatchList := WatchList b;
     NextPositionID := wrap64 (NextPositionID b + 1);
     Config := Config b |}.

Definition recordPosition (position : TradingPosition) : M unit :=
  b <- getBot ;;
  setBot (recordedBot b position).

(** The [TradingPosition] literal of [executeBuy], built from the buy
    order's response before any sell order is attempted. *)
Definition initialPosition (b : TradingBot) (coin : OptimizedTicker)
    (dropPercentage : float) (orderResp : OrderResponse) (now : nat) : TradingPosition :=
  let actualQty := fst (ParseFloat (ExecutedQty orderResp)) in
  let avgPrice := averageFillPrice orderResp coin in
  {| ID := NextPositionID b;
     Symbol := tickerSymbol coin;
     BuyPrice := avgPrice;
     Quantity := actualQty;
     InvestedAmount := InvestmentAmount b;
     TargetSellPrice := avgPrice * 0x1.0cccccccccccdp+0 (* 1.05 *);
     BuyTime := now;
     DropPercentage := dropPercentage;
     CurrentValue := avgPrice * actualQty;
     SellOrderID := 0;
     HasActiveSellOrder := false |}.

(** Lines 598-641 of [executeBuy]: the protective limit sell. *)
Definition attachSellOrder (coin : OptimizedTicker) (actualQty : float)
    (position : TradingPosition) : M TradingPosition :=
  filters <- getSymbolFilters (tickerSymbol coin) ;;
  match filters with
  | Err _ => ret position
  | Ok filters =>
      let roundedSellPrice :=
        roundToTickSize (TargetSellPrice position) (TickSize filters) in
      sell <- placeSellWithRetry maxRetries (tickerSymbol coin) actualQty roundedSellPrice ;;
      match sell with
      | Err _ => ret position
      | Ok sellOrderResp =>
          ret (withSellOrder position (OrderID sellOrderResp) roundedSellPrice)
      end
  end.

(** [executeBuy] executes a real buy order on Binance mainnet. *)
Definition executeBuy (coin : OptimizedTicker) (dropPercentage : float) : M unit :=
  b <- getBot ;;
  if AvailableBudget b <? InvestmentAmount b then ret tt
  else
    order <- executeBuyOrder (tickerSymbol coin) (InvestmentAmount b) ;;
    match order with
    | Err _ => ret tt
    | Ok orderResp =>
        now <- getLog ;;
        let position := initialPosition b coin dropPercentage orderResp (List.length now) in
        sleep 3 ;;
        position <- attachSellOrder coin (Quantity position) position ;;
        recordPosition position
    end.

(** The body of the loop of [analyzeTradingOpportunities] for one coin.  The
    labels printed are logged as [EvSignal]; the two counters only feed the
    summary printed afterwards and are not kept. *)
Definition analyzeCoin (coin : OptimizedTicker) : M unit :=
  let x := PriceChangePercent coin in
  let name := tickerSymbol coin in
  if x <=? -11.0 then emit (EvSignal SKIP name) (* continue *)
  else
    when ((x <=? -4.5) && (-5.0 <? x)) (emit (EvSignal WATCH name)) ;;
    if (x <=? -5.0) && (-10.0 <? x) then
      emit (EvSignal BUY name) ;;
      executeBuy coin x
    else if -5.0 <? x then emit (EvSignal HOLD name)
    else if (x <=? -10.0) && (-11.0 <? x) then emit (EvSignal RISKY name)
    else ret tt.

Definition analyzeTradingOpportunities : M unit :=
  b <- getBot ;;
  forEach (WatchList b) analyzeCoin.

(** [runTradingCycle], given what [fetchTop20CoinsFromCMC] returned. *)
Definition runTradingCycle (fetched : Result (list OptimizedTicker)) : M (Result unit) :=
  match fetched with
  | Err e => ret (Err (String.append "failed to fetch CoinMarketCap top 20: " e))
  | Ok watchList =>
      b <- getBot ;;
      setBot {| TotalBudget := TotalBudget b;
                AvailableBudget := AvailableBudget b;
                InvestmentAmount := InvestmentAmount b;
                Positions := Positions b;
                WatchList := watchList;
                NextPositionID := NextPositionID b;
                Config := Config b |} ;;
      analyzeTradingOpportunities ;;
      ret (Ok tt)
  end.

End Bot.

(** ** trading-bot.go: what surrounds the buying path *)

(** [AccountInfo] of structs.go. *)
Record Balance : Type := {
  Asset : string;
  Free : string;
  Locked : string
}.

Record AccountInfo : Type := {
  Balances : list Balance
}.

(** [ExchangeInfo]: one entry of [Symbols[i].Filters]. *)
Record ExchangeFilter : Type := {
  FilterType : string;
  filterStepSize : string;
  filterTickSize : string
}.

Record ExchangeSymbol : Type := {
  infoSymbol : string;
  Filters : list ExchangeFilter
}.

Record ExchangeInfo : Type := {
  Symbols : list ExchangeSymbol
}.

(** [CoinMarketCapResponse]: [Data[i].Quote.USD] and [Data[i]]. *)
Record QuoteUSD : Type := {
  Price : float;
  Volume24h : float;
  PercentChange1h : float;
  QuotePercentChange24h : float;
  PercentChange7d : float;
  MarketCap : float;
  LastUpdated : string
}.

Record CMCCoin : Type := {
  cmcID : Z;
  cmcName : string;
  cmcSymbol : string;
  cmcSlug : string;
  QuoteUSDOf : QuoteUSD
}.

Record CoinMarketCapResponse : Type := {
  StatusErrorCode : Z;
  StatusErrorMessage : string;
  Data : list CMCCoin
}.

(** The ticker [fetchTop20CoinsFromCMC] appends for one coin.  The field
    [PercentChange24h] is not set and keeps Go's zero value. *)
Definition tickerOfCoin (coin : CMCCoin) : OptimizedTicker :=
  {| tickerSymbol := String.append (cmcSymbol coin) "USDT";
     LastPrice := Price (QuoteUSDOf coin);
     PriceChangePercent := QuotePercentChange24h (QuoteUSDOf coin);
     PercentChange24h := 0%float |}.

(** The loop of [fetchTop20CoinsFromCMC] over [cmcResponse.Data], with its
    two variables [top20Coins] and [addedCount]; [break] at 20. *)
Fixpoint collectTop20 (data : list CMCCoin) (top20Coins : list OptimizedTicker)
    (addedCount : Z) : list OptimizedTicker :=
  match data with
  | [] => top20Coins
  | coin :: rest =>
      if 20 <=? addedCount then top20Coins
      else collectTop20 rest (top20Coins ++ [tickerOfCoin coin]) (addedCount + 1)
  end.

(** [fetchTop20CoinsFromCMC] from the decoded response on: the API's own
    error code, then the loop. *)
Definition tickersOfResponse (cmcResponse : CoinMarketCapResponse)
  : Result (list OptimizedTicker) :=
  if negb (StatusErrorCode cmcResponse =? 0)
  then Err (String.append "CMC API error: " (StatusErrorMessage cmcResponse))
  else Ok (collectTop20 (Data cmcResponse) [] 0).

(** The two counters of the summary printed by [fetchTop20CoinsFromCMC]. *)
Fixpoint countOpportunities (top20Coins : list OptimizedTicker)
    (buyOpportunities watchList : Z) : Z * Z :=
  match top20Coins with
  | [] => (buyOpportunities, watchList)
  | coin :: rest =>
      let x := PriceChangePercent coin in
      if ((x <=? -5.0) && (-10.0 <? x))%float
      then countOpportunities rest (buyOpportunities + 1) watchList
      else if ((x <=? -4.5) && (-5.0 <? x))%float
      then countOpportunities rest buyOpportunities (watchList + 1)
      else countOpportunities rest buyOpportunities watchList
  end.

(** The loop of [getSymbolFilters] over [symbolInfo.Filters]. *)
Definition applyFilter (filters : SymbolFilters) (filter : ExchangeFilter) : SymbolFilters :=
  if String.eqb (FilterType filter) "LOT_SIZE"
  then {| StepSize := filterStepSize filter; TickSize := TickSize filters |}
  else if String.eqb (FilterType filter) "PRICE_FILTER"
  then {| StepSize := StepSize filters; TickSize := filterTickSize filter |}
  else filters.

(** [getSymbolFilters] from the decoded [ExchangeInfo] on. *)
Definition symbolFiltersOf (symbol : string) (exchangeInfo : ExchangeInfo)
  : Result SymbolFilters :=
  match Symbols exchangeInfo with
  | [] => Err (String.append "symbol " (String.append symbol " not found"))
  | symbolInfo :: _ =>
      Ok (fold_left applyFilter (Filters symbolInfo) {| StepSize := ""; TickSize := "" |})
  end.

(** [getCurrentPortfolioValue] calculates the current value of all positions. *)
Definition getCurrentPortfolioValue (b : TradingBot) : float :=
  fold_left (fun totalValue pos => (totalValue + CurrentValue pos)%float) (Positions b) 0%float.

Section Startup.

Context {RT : Runtime}.

(** The loop of [getRealUSDTBalance] over [accountInfo.Balances]. *)
Fixpoint findUSDTBalance (balances : list Balance) : Result float :=
  match balances with
  | [] => Err "USDT balance not found in account"
  | balance :: rest =>
      if String.eqb (Asset balance) "USDT" then
        match ParseFloat (Free balance) with
        | (_, Some err) => Err (String.append "error parsing USDT balance: " err)
        | (usdtBalance, None) => Ok usdtBalance
        end
      else findUSDTBalance rest
  end.

(** [getRealUSDTBalance], given what the signed account request returned
    once decoded. *)
Definition getRealUSDTBalance (apiKey secretKey : string) (account : Result AccountInfo)
  : Result float :=
  if (String.eqb apiKey "" || String.eqb secretKey "")%bool
  then Err "Binance API credentials not configured"
  else
    match account with
    | Err e => Err e
    | Ok accountInfo => findUSDTBalance (Balances accountInfo)
    end.

(** [StartTradingBot] up to the call of [bot.startBot()]: the three keys
    read from the environment, the balance fetched from Binance, and the bot
    built from it.  [log.Fatalf] is the error case; its message keeps the
    fixed text, the formatted balance is left out. *)
Definition StartTradingBot (apiKey secretKey cmcKey : string)
    (account : Result AccountInfo) : Result TradingBot :=
  if (String.eqb apiKey "" || String.eqb secretKey "")%bool
  then Err "ERROR: BINANCE API KEYS REQUIRED! Set BINANCE_API_KEY and BINANCE_SECRET_KEY in .env file"
  else if String.eqb cmcKey ""
  then Err "ERROR: COINMARKETCAP API KEY REQUIRED! Set COIN_MARKET_CAP_API_KEY in .env file"
  else
    match getRealUSDTBalance apiKey secretKey account with
    | Err e => Err (String.append "ERROR: Failed to fetch real USDT balance: " e)
    | Ok realBalance =>
        if (realBalance <? 7.0)%float
        then Err "ERROR: Insufficient USDT balance. Need at least 7 USDT for trading."
        else
          match NewTradingBot realBalance
                  {| APIKey := apiKey; SecretKey := secretKey;
                     BaseURL := "https://api.binance.com" |} with
          | Err e => Err (String.append "Failed to initialize trading bot: " e)
          | Ok b => Ok b
          end
    end.

End Startup.

(** ** A reference runtime

    [parseDecimal] reads the plain decimal forms [[+-]digits[.digits]] and
    rounds the exact quotient to the nearest binary64 value, as
    [strconv.ParseFloat] does; any other string is reported as a syntax
    error with value 0.  Go also accepts exponents, hexadecimal floats,
    digit separators and the names of the infinities and NaN: none of the
    general theorems below depends on this instance, which only serves to
    evaluate the code on concrete inputs. *)

Definition digitValue (c : ascii) : option Z :=
  let n := Z.of_nat (nat_of_ascii c) in
  if (48 <=? n) && (n <=? 57) then Some (n - 48) else None.

(** Reads a run of digits: the number read so far, how many digits it has,
    and what follows. *)
Fixpoint readDigits (s : string) (acc : Z) (count : nat) : Z * nat * string :=
  match s with
  | EmptyString => (acc, count, s)
  | String c rest =>
      match digitValue c with
      | Some d => readDigits rest (10 * acc + d) (S count)
      | None => (acc, count, s)
      end
  end.

Definition readSign (s : string) : bool * string :=
  match s with
  | String "-"%char rest => (true, rest)
  | String "+"%char rest => (false, rest)
  | _ => (false, s)
  end.

(** The binary64 value nearest to [(-1)^sign * m / 10^scale]. *)
Definition decimalToFloat (sign : bool) (m : Z) (scale : nat) : spec_float :=
  if m =? 0 then S754_zero sign
  else
    let '(q, e, l) := SFdiv_core_binary prec emax m 0 (10 ^ Z.of_nat scale) 0 in
    binary_round_aux prec emax sign q e l.

Definition parseDecimal (s : string) : float * option string :=
  let (sign, s1) := readSign s in
  let '(m1, n1, s2) := readDigits s1 0 0 in
  let '(m, n, s3) :=
    match s2 with
    | String "."%char frac => let '(m2, n2, s3) := readDigits frac m1 0 in (m2, n2, (n1 + n2)%nat, s3)
    | _ => (m1, O, n1, s2)
    end in
  let '(m, scale) := m in
  match n, s3 with
  | S _, EmptyString =>
      match decimalToFloat sign m scale with
      | S754_infinity sg => (SF2Prim (S754_infinity sg), Some "value out of range")
      | f => (SF2Prim f, None)
      end
  | _, _ => (0%float, Some "invalid syntax")
  end.

(** On amd64 an unrepresentable conversion yields the most negative
    [int64]. *)
#[export] Instance goRuntime : Runtime := {
  ParseFloat := parseDecimal;
  int64_unrepresentable := fun _ => int64_min
}.

(** ** Sample data for concrete runs *)

Definition sampleConfig : BinanceConfig :=
  {| APIKey := "key"; SecretKey := "secret"; BaseURL := "https://api.binance.com" |}.

(** A bot as [NewTradingBot] builds it, with the available budget set apart
    so that a partly spent budget can be written down. *)
Definition sampleBot (total available : float) : TradingBot :=
  {| TotalBudget := total;
     AvailableBudget := available;
     InvestmentAmount := 7.0%float;
     Positions := [];
     WatchList := [];
     NextPositionID := 1;
     Config := sampleConfig |}.

Definition sampleState (total available : float) : State :=
  {| bot := sampleBot total available; log := [] |}.

Definition coinABC : OptimizedTicker :=
  {| tickerSymbol := "ABCUSDT";
     LastPrice := 10.0%float;
     PriceChangePercent := (-7.0)%float;
     PercentChange24h := 0%float |}.

Definition sampleOrder (orderID : Z) (executedQty : string) (fills : list Fill)
  : OrderResponse :=
  {| respSymbol := "ABCUSDT"; OrderID := orderID; ClientOrderID := "";
     TransactTime := 0; respPrice := "0"; OrigQty := executedQty;
     ExecutedQty := executedQty; Status := "FILLED"; respType := "MARKET";
     Side := "BUY"; Fills := fills |}.

Definition sampleFill (price qty : string) : Fill :=
  {| fillPrice := price; fillQty := qty; fillCommission := "0";
     fillCommissionAsset := "ABC" |}.

Definition sampleFilters : SymbolFilters :=
  {| StepSize := "0.01000000"; TickSize := "0.01000000" |}.

(** An exchange that follows a script: one answer to every market buy, one
    to every rules lookup, and the [k]-th answer of [sells] to the [k]-th
    limit sell ever submitted (an error once the script is exhausted). *)
Definition scriptedExchange (buy : Result OrderResponse)
    (rules : Result SymbolFilters) (sells : list (Result OrderResponse)) : Exchange :=
  {| marketBuy := fun _ _ _ => buy;
     exchangeInfo := fun _ _ => rules;
     limitSell := fun history _ _ _ =>
       nth (List.length (filter is_limit_sell history)) sells (Err "no answer") |}.

(** A market buy of 0.7 ABC at 10, rules with a tick of 0.01, and a limit
    sell accepted at the first attempt. *)
Definition filledOrder : OrderResponse :=
  sampleOrder 1001 "0.70000000" [sampleFill "10.00000000" "0.70000000"].

Definition happyExchange : Exchange :=
  scriptedExchange (Ok filledOrder) (Ok sampleFilters) [Ok (sampleOrder 2002 "0" [])].

(** The market buy is refused. *)
Definition refusingExchange : Exchange :=
  scriptedExchange (Err "buy order failed with status 400") (Ok sampleFilters) [].

(** The limit sell fails twice and is accepted at the third attempt. *)
Definition flakyExchange : Exchange :=
  scriptedExchange (Ok filledOrder) (Ok sampleFilters)
    [Err "timeout"; Err "timeout"; Ok (sampleOrder 2002 "0" [])].


(** The market buy is accepted, and the answer's [executedQty] is not a
    number. *)
Definition garbledExchange : Exchange :=
  scriptedExchange (Ok (sampleOrder 1001 "abc" [])) (Err "symbol not found") [].

Definition coinAt (change : float) : OptimizedTicker :=
  {| tickerSymbol := "XYZUSDT";
     LastPrice := 10.0%float;
     PriceChangePercent := change;
     PercentChange24h := 0%float |}.

(** A bot watching [coins]. *)
Definition watchingState (total available : float) (coins : list OptimizedTicker) : State :=
  {| bot := {| TotalBudget := total;
               AvailableBudget := available;
               InvestmentAmount := 7.0%float;
               Positions := [];
               WatchList := coins;
               NextPositionID := 1;
               Config := sampleConfig |};
     log := [] |}.

Definition sampleCoin (symbol : string) (price change24h : float) : CMCCoin :=
  {| cmcID := 1; cmcName := symbol; cmcSymbol := symbol; cmcSlug := symbol;
     QuoteUSDOf := {| Price := price; Volume24h := 0%float; PercentChange1h := 0%float;
                      QuotePercentChange24h := change24h; PercentChange7d := 0%float;
                      MarketCap := 0%float; LastUpdated := "" |} |}.

(** A response with a coin of the BUY zone and a stablecoin. *)
Definition sampleResponse : CoinMarketCapResponse :=
  {| StatusErrorCode := 0; StatusErrorMessage := "";
     Data := [sampleCoin "ABC" 10.0%float (-7.0)%float;
              sampleCoin "USDC" 1.0%float 0%float] |}.

(** An exchange info without a PRICE_FILTER filter. *)
Definition sampleExchangeInfo : ExchangeInfo :=
  {| Symbols := [{| infoSymbol := "ABCUSDT";
                    Filters := [{| FilterType := "LOT_SIZE"; filterStepSize := "0.01";
                                   filterTickSize := "" |}] |}] |}.

Definition sampleAccount : AccountInfo :=
  {| Balances := [{| Asset := "BTC"; Free := "0.5"; Locked := "0" |};
                  {| Asset := "USDT"; Free := "25.5"; Locked := "0" |}] |}.

(** ** Observations on a run *)




(** The labels reported so far, oldest first. *)
Fixpoint signals (events : list Event) : list Signal :=
  match events with
  | [] => []
  | EvSignal z _ :: rest => z :: signals rest
  | _ :: rest => signals rest
  end.


(** [n] times [AvailableBudget -= unit], each subtraction rounded. *)
Fixpoint spend (n : nat) (unit budget : float) : float :=
  match n with
  | O => budget
  | S k => (spend k unit budget - unit)%float
  end.

(** The events of the retry loop: limit sells and the two-second waits
    between them. *)
Definition is_retry_event (e : Event) : bool :=
  match e with
  | EvLimitSell _ _ _ => true
  | EvSleep 2 => true
  | _ => false
  end.

(** Position ids strictly increase along the list and stay below [next]. *)
Fixpoint idsIncreasingBelow (positions : list TradingPosition) (next : Z) : Prop :=
  match positions with
  | [] => True
  | p :: rest =>
      ID p < next /\ Forall (fun q => ID p < ID q) rest /\ idsIncreasingBelow rest next
  end.

(** The BUY zone of the analysis. *)
Definition inBuyZone (x : float) : bool := ((x <=? -5.0) && (-10.0 <? x))%float.

(** The value a filter loop that overwrites leaves behind: that of the last
    filter of the given type, or Go's zero value. *)
Definition lastFilterValue (filterType : string) (value : ExchangeFilter -> string)
    (filters : list ExchangeFilter) : string :=
  match find (fun f => String.eqb (FilterType f) filterType) (rev filters) with
  | Some f => value f
  | None => ""
  end.

Definition is_usdt (balance : Balance) : bool := String.eqb (Asset balance) "USDT".

(** The WATCH zone of the analysis and of the summary. *)
Definition inWatchZone (x : float) : bool := ((x <=? -4.5) && (-5.0 <? x))%float.

Definition is_buy_signal (z : Signal) : bool :=
  match z with BUY => true | _ => false end.

Definition is_watch_signal (z : Signal) : bool :=
  match z with WATCH => true | _ => false end.

(** The analysis loop over a list of coins ([analyzeTradingOpportunities]
    runs it over the bot's watch list). *)
Definition analyzeCoins {RT : Runtime} (exchange : Exchange)
    (coins : list OptimizedTicker) : M unit :=
  forEach coins (analyzeCoin exchange).

(** What the analysis may record for a coin of [coins], by a bot whose
    investment unit is [unit]. *)
Definition boughtFrom (coins : list OptimizedTicker) (unit : float)
    (p : TradingPosition) : Prop :=
  inBuyZone (DropPercentage p) = true /\
  (exists coin, In coin coins /\ Symbol p = tickerSymbol coin /\
                DropPercentage p = PriceChangePercent coin) /\
  InvestedAmount p = unit /\
  CurrentValue p = (BuyPrice p * Quantity p)%float.

(** * Properties *)

(** ** Ordering of binary64 values *)

Lemma Prim2SF_m11 : Prim2SF (-11.0)%float = S754_finite true 6192449487634432 (-49).
Proof. vm_compute. reflexivity. Qed.

Lemma Prim2SF_m10 : Prim2SF (-10.0)%float = S754_finite true 5629499534213120 (-49).
Proof. vm_compute. reflexivity. Qed.

Lemma Prim2SF_m5 : Prim2SF (-5.0)%float = S754_finite true 5629499534213120 (-50).
Proof. vm_compute. reflexivity. Qed.

Lemma Prim2SF_m4_5 : Prim2SF (-4.5)%float = S754_finite true 5066549580791808 (-50).
Proof. vm_compute. reflexivity. Qed.

Lemma Prim2SF_zero : Prim2SF 0%float = S754_zero false.
Proof. vm_compute. reflexivity. Qed.

(** [SFcompare] on two finite values, with the mantissas compared as
    integers. *)
Lemma SFcompare_finite (s1 : bool) (m1 : positive) (e1 : Z)
    (s2 : bool) (m2 : positive) (e2 : Z) :
  SFcompare (S754_finite s1 m1 e1) (S754_finite s2 m2 e2) =
  Some (match s1, s2 with
        | true, false => Lt
        | false, true => Gt
        | false, false =>
            match Z.compare e1 e2 with
            | Lt => Lt | Gt => Gt | Eq => Z.compare (Zpos m1) (Zpos m2)
            end
        | true, true =>
            match Z.compare e1 e2 with
            | Lt => Gt | Gt => Lt | Eq => CompOpp (Z.compare (Zpos m1) (Zpos m2))
            end
        end).
Proof. reflexivity. Qed.

Lemma SFcompare_other_finite (x : spec_float) (s2 : bool) (m2 : positive) (e2 : Z) :
  not_finite x ->
  SFcompare x (S754_finite s2 m2 e2) =
  match x with
  | S754_nan => None
  | S754_infinity s => Some (if s then Lt else Gt)
  | _ => Some (if s2 then Gt else Lt)
  end.
Proof. destruct x; intros H; try reflexivity. destruct H. Qed.

Lemma SFcompare_finite_other (s1 : bool) (m1 : positive) (e1 : Z) (y : spec_float) :
  not_finite y ->
  SFcompare (S754_finite s1 m1 e1) y =
  match y with
  | S754_nan => None
  | S754_infinity s => Some (if s then Gt else Lt)
  | _ => Some (if s1 then Lt else Gt)
  end.
Proof. destruct y; intros H; try reflexivity. destruct H. Qed.

(** Decides goals about the order of one float and the thresholds of the
    analysis.  Mantissas are compared in [Z], where [lia] reads literals. *)
Ltac float_order :=
  rewrite ?ltb_spec, ?leb_spec, ?eqb_spec in *;
  rewrite ?Prim2SF_m11, ?Prim2SF_m10, ?Prim2SF_m5, ?Prim2SF_m4_5 in *;
  match goal with
  | |- context [Prim2SF ?x] =>
      let s := fresh "s" in let m := fresh "m" in let e := fresh "e" in
      destruct (Prim2SF x) as [s|s| |s m e]
  end;
  unfold SFltb, SFleb, SFeqb in *;
  [ rewrite ?SFcompare_other_finite, ?SFcompare_finite_other in * by exact I ..
  | rewrite ?SFcompare_finite in * ];
  repeat match goal with s : bool |- _ => destruct s end;
  try discriminate; try reflexivity;
  repeat match goal with
  | H : context [Z.compare ?a ?b] |- _ => destruct (Z.compare_spec a b)
  | |- context [Z.compare ?a ?b] => destruct (Z.compare_spec a b)
  end;
  unfold CompOpp in *;
  try discriminate; try reflexivity; try (exfalso; lia).

(** ** Rounding keeps the sign *)

Lemma iter_pos_invariant {A} (f : A -> A) (P : A -> Prop) :
  (forall a, P a -> P (f a)) -> forall p a, P a -> P (SpecFloat.iter_pos f p a).
Proof.
  intros Hf p. induction p as [p IH|p IH|]; intros a Ha; cbn [SpecFloat.iter_pos]; auto.
Qed.

Lemma shr_1_nonneg mrs : 0 <= shr_m mrs -> 0 <= shr_m (shr_1 mrs).
Proof.
  destruct mrs as [m r s]. cbn [shr_m]. intros H.
  destruct m as [|p|p]; [cbn; lia| |lia].
  destruct p; cbn; lia.
Qed.

Lemma digits2_pos_bounds (m : positive) :
  2 ^ (Zpos (digits2_pos m) - 1) <= Zpos m < 2 ^ Zpos (digits2_pos m).
Proof.
  induction m as [m IH|m IH|]; cbn [digits2_pos].
  - rewrite Pos2Z.inj_succ. replace (Z.succ (Z.pos (digits2_pos m)) - 1) with (Z.succ (Z.pos (digits2_pos m) - 1)) by lia.
    rewrite !Z.pow_succ_r by lia. lia.
  - rewrite Pos2Z.inj_succ. replace (Z.succ (Z.pos (digits2_pos m)) - 1) with (Z.succ (Z.pos (digits2_pos m) - 1)) by lia.
    rewrite !Z.pow_succ_r by lia. lia.
  - cbn. lia.
Qed.

(** the number of digits is determined by the bounds *)
Lemma digits2_pos_unique (m : positive) (d : Z) :
  2 ^ (d - 1) <= Zpos m < 2 ^ d -> 0 < d -> Zpos (digits2_pos m) = d.
Proof.
  intros [H1 H2] Hd. destruct (digits2_pos_bounds m) as [B1 B2].
  assert (d - 1 < Zpos (digits2_pos m)).
  { apply (Z.pow_lt_mono_r_iff 2); lia. }
  assert (Zpos (digits2_pos m) - 1 < d).
  { apply (Z.pow_lt_mono_r_iff 2); lia. }
  lia.
Qed.

Lemma shr_1_div2 mrs : 0 <= shr_m mrs -> shr_m (shr_1 mrs) = shr_m mrs / 2.
Proof.
  destruct mrs as [m r s]. cbn [shr_m]. intros H.
  destruct m as [|p|p]; [reflexivity| |lia].
  destruct p as [p|p|]; cbn [shr_1 shr_m].
  - rewrite Pos2Z.inj_xI. apply Z.div_unique with 1; lia.
  - rewrite Pos2Z.inj_xO. apply Z.div_unique with 0; lia.
  - reflexivity.
Qed.

Lemma shr_m_iter (p : positive) : forall mrs,
  0 <= shr_m mrs -> shr_m (SpecFloat.iter_pos shr_1 p mrs) = shr_m mrs / 2 ^ Zpos p.
Proof.
  induction p as [p IH|p IH|]; intros mrs H; cbn [SpecFloat.iter_pos].
  - assert (H1 : 0 <= shr_m (shr_1 mrs)) by now apply shr_1_nonneg.
    assert (H2 : 0 <= shr_m (SpecFloat.iter_pos shr_1 p (shr_1 mrs))).
    { apply (iter_pos_invariant shr_1 (fun a => 0 <= shr_m a)); auto using shr_1_nonneg. }
    rewrite IH, IH, shr_1_div2 by assumption.
    assert (Hp : 0 < 2 ^ Zpos p) by (apply Z.pow_pos_nonneg; lia).
    rewrite !Z.div_div by lia. f_equal.
    replace (Zpos p~1) with (1 + Zpos p + Zpos p) by lia.
    rewrite !Z.pow_add_r by lia. change (2 ^ 1) with 2. lia.
  - assert (H2 : 0 <= shr_m (SpecFloat.iter_pos shr_1 p mrs)).
    { apply (iter_pos_invariant shr_1 (fun a => 0 <= shr_m a)); auto using shr_1_nonneg. }
    assert (Hp : 0 < 2 ^ Zpos p) by (apply Z.pow_pos_nonneg; lia).
    rewrite IH, IH by assumption. rewrite Z.div_div by lia. f_equal.
    replace (Zpos p~0) with (Zpos p + Zpos p) by lia.
    rewrite Z.pow_add_r by lia. reflexivity.
  - rewrite shr_1_div2 by assumption. reflexivity.
Qed.

Lemma fexp_value (z : Z) : fexp prec emax z = Z.max (z - 53) (-1074).
Proof. reflexivity. Qed.

Lemma round_nearest_even_range (m : Z) (l : location) :
  m <= round_nearest_even m l <= m + 1.
Proof.
  destruct l as [|[]]; cbn [round_nearest_even]; try lia.
  destruct (Z.even m); lia.
Qed.

Lemma shr_m_record_of_loc m l : shr_m (shr_record_of_loc m l) = m.
Proof. destruct l as [|[]]; reflexivity. Qed.

Lemma loc_of_record_of_loc m l : loc_of_shr_record (shr_record_of_loc m l) = l.
Proof. destruct l as [|[]]; reflexivity. Qed.

(** shr_fexp on a number of 53 digits or more, in the normal range *)
Lemma shr_fexp_normal (m : positive) (e : Z) (l : location) :
  let d := Zpos (digits2_pos m) in
  53 <= d -> -1074 <= d + e - 53 ->
  shr_m (fst (shr_fexp prec emax (Zpos m) e l)) = Zpos m / 2 ^ (d - 53) /\
  snd (shr_fexp prec emax (Zpos m) e l) = e + (d - 53) /\
  (d = 53 -> fst (shr_fexp prec emax (Zpos m) e l) = shr_record_of_loc (Zpos m) l).
Proof.
  intros d Hd He. unfold shr_fexp. cbn [Zdigits2]. fold d. rewrite fexp_value.
  rewrite Z.max_l by lia.
  replace (d + e - 53 - e) with (d - 53) by lia.
  destruct (d - 53) as [|p|p] eqn:Hk; [| |lia].
  - cbn [shr fst snd]. rewrite shr_m_record_of_loc.
    split; [now rewrite Z.div_1_r|]. split; [lia | reflexivity].
  - cbn [shr fst snd]. rewrite shr_m_iter by (rewrite shr_m_record_of_loc; lia).
    rewrite shr_m_record_of_loc. split; [reflexivity|]. split; [reflexivity | lia].
Qed.

Lemma pow2_52 : 2 ^ 52 = 4503599627370496. Proof. reflexivity. Qed.
Lemma pow2_53 : 2 ^ 53 = 9007199254740992. Proof. reflexivity. Qed.

(** the quotient of an integer by 2^(digits - 53) has 53 digits *)
Lemma div_pow2_53 (m : positive) :
  let d := Zpos (digits2_pos m) in
  53 <= d -> 2 ^ 52 <= Zpos m / 2 ^ (d - 53) < 2 ^ 53.
Proof.
  intros d Hd. destruct (digits2_pos_bounds m) as [B1 B2]. fold d in B1, B2.
  assert (Hp : 0 < 2 ^ (d - 53)) by (apply Z.pow_pos_nonneg; lia).
  assert (E1 : 2 ^ (d - 1) = 2 ^ 52 * 2 ^ (d - 53)).
  { rewrite <- Z.pow_add_r by lia. f_equal. lia. }
  assert (E2 : 2 ^ d = 2 ^ 53 * 2 ^ (d - 53)).
  { rewrite <- Z.pow_add_r by lia. f_equal. lia. }
  split.
  - apply Z.div_le_lower_bound; lia.
  - apply Z.div_lt_upper_bound; lia.
Qed.


Lemma binary_round_aux_normal (sx : bool) (m : positive) (e : Z) (l : location) :
  let d := Zpos (digits2_pos m) in
  53 <= d -> -1074 <= d + e - 53 ->
  exists m2,
    Zpos m / 2 ^ (d - 53) <= m2 <= Zpos m / 2 ^ (d - 53) + 1 /\
    (d = 53 -> l = loc_Exact -> m2 = Zpos m) /\
    binary_round_aux prec emax sx (Zpos m) e l = rounded sx m2 (e + (d - 53)).
Proof.
  intros d Hd He. unfold binary_round_aux.
  destruct (shr_fexp_normal m e l Hd He) as [H1 [H2 H3]]. fold d in H1, H2, H3.
  destruct (shr_fexp prec emax (Zpos m) e l) as [mrs' e']. cbn [fst snd] in H1, H2, H3.
  subst e'.
  pose proof (div_pow2_53 m Hd) as Hq. fold d in Hq. rewrite <- H1 in Hq.
  pose proof (round_nearest_even_range (shr_m mrs') (loc_of_shr_record mrs')) as Hr.
  set (m2 := round_nearest_even (shr_m mrs') (loc_of_shr_record mrs')) in *.
  exists m2. rewrite <- H1. split; [exact Hr|]. split.
  { intros Hd53 Hl. subst l. subst m2. rewrite (H3 Hd53). reflexivity. }
  clearbody m2. rewrite pow2_52, pow2_53 in Hq.
  unfold rounded. rewrite pow2_53.
  destruct (Z.ltb_spec m2 9007199254740992) as [Hlt|Hge].
  - (* no carry *)
    destruct m2 as [|p2|p2]; try lia.
    assert (Hd2 : Zpos (digits2_pos p2) = 53).
    { apply digits2_pos_unique; [|lia]. rewrite pow2_53. change (2 ^ (53 - 1)) with 4503599627370496. lia. }
    destruct (shr_fexp_normal p2 (e + (d - 53)) loc_Exact) as [G1 [G2 G3]];
      [lia | lia |].
    rewrite Hd2 in G1, G2. specialize (G3 Hd2).
    destruct (shr_fexp prec emax (Zpos p2) (e + (d - 53)) loc_Exact) as [mrs'' e''].
    cbn [fst snd] in G1, G2, G3. subst mrs'' e''. cbn [shr_record_of_loc shr_m].
    replace (e + (d - 53) + (53 - 53)) with (e + (d - 53)) by lia.
    reflexivity.
  - assert (m2 = 9007199254740992) by lia. subst m2.
    unfold shr_fexp. rewrite fexp_value.
    change (Zdigits2 9007199254740992) with 54.
    rewrite Z.max_l by lia.
    replace (54 + (e + (d - 53)) - 53 - (e + (d - 53))) with 1 by lia.
    cbn [shr shr_record_of_loc SpecFloat.iter_pos shr_1 shr_m fst snd].
    reflexivity.
Qed.


Lemma shl_align_spec (mx : positive) (ex ez : Z) :
  ez <= ex ->
  Zpos (fst (shl_align mx ex ez)) = Zpos mx * 2 ^ (ex - ez) /\
  snd (shl_align mx ex ez) = ez.
Proof.
  intros H. unfold shl_align.
  destruct (ez - ex) as [|d|d] eqn:Hd.
  - replace (ex - ez) with 0 by lia. cbn [fst snd]. split; lia.
  - lia.
  - cbn [fst snd]. split; [|reflexivity]. replace (ex - ez) with (Zpos d) by lia.
    rewrite Pos.iter_swap_gen with (f := Zpos) (h := Z.mul 2) by reflexivity.
    clear. induction d using Pos.peano_ind.
    + cbn. lia.
    + rewrite Pos.iter_succ, IHd, Pos2Z.inj_succ, Z.pow_succ_r by lia. lia.
Qed.

Lemma shl_align_id (mx : positive) (ex ez : Z) :
  ex <= ez -> shl_align mx ex ez = (mx, ex).
Proof.
  intros H. unfold shl_align. destruct (ez - ex) as [|d|d] eqn:Hd; try reflexivity. lia.
Qed.










(** A valid mantissa and exponent are in canonical form. *)
Lemma bounded_canonical m e :
  SpecFloat.bounded prec emax m e = true ->
  e = Z.max (Zpos (digits2_pos m) + e - 53) (-1074).
Proof.
  unfold SpecFloat.bounded, canonical_mantissa, fexp, SpecFloat.emin, prec, emax.
  intros H. apply andb_prop in H. destruct H as [H _]. apply Z.eqb_eq in H. lia.
Qed.


Lemma Prim2SF_finite (u : float) : is_finite u = true -> SFfinite (Prim2SF u).
Proof.
  unfold is_finite, Prim2SF.
  destruct (is_nan u); [discriminate|]. destruct (is_infinity u); [discriminate|].
  intros _. destruct (is_zero u); [exact I|].
  destruct (Z.frexp u) as [r ex]. destruct (shr_fexp _ _ _ _ _) as [mrs e'].
  destruct (shr_m mrs); exact I.
Qed.


(** ** Rounding error *)

Local Open Scope R_scope.




Lemma bpow_pos (e : Z) : 0 < bpow e.
Proof. apply powerRZ_lt. lra. Qed.

Lemma bpow_add (a b : Z) : bpow (a + b) = bpow a * bpow b.
Proof. apply powerRZ_add. lra. Qed.

Lemma bpow_IZR (k : Z) : (0 <= k)%Z -> bpow k = IZR (2 ^ k).
Proof.
  intros Hk. unfold bpow. destruct k as [|p|p]; [reflexivity| |lia].
  change (2 ^ Zpos p)%Z with (Z.pow_pos 2 p). now rewrite Zpower_pos_powerRZ.
Qed.

Lemma bpow_0 : bpow 0 = 1.
Proof. reflexivity. Qed.

Lemma bpow_opp (a : Z) : bpow (- a) * bpow a = 1.
Proof. rewrite <- bpow_add. replace (- a + a)%Z with 0%Z by lia. reflexivity. Qed.

Lemma bpow_le (a b : Z) : (a <= b)%Z -> bpow a <= bpow b.
Proof.
  intros H.
  assert (E : bpow b = bpow a * bpow (b - a)).
  { rewrite <- bpow_add. f_equal. lia. }
  rewrite E, (bpow_IZR (b - a)) by lia.
  assert (1 <= IZR (2 ^ (b - a))).
  { apply IZR_le. assert (0 < 2 ^ (b - a))%Z by (apply Z.pow_pos_nonneg; lia). lia. }
  pose proof (bpow_pos a). nra.
Qed.

Lemma F2R_shift (m e k : Z) : (0 <= k)%Z -> F2R (m * 2 ^ k) e = F2R m (e + k).
Proof.
  intros Hk. unfold F2R. rewrite mult_IZR, bpow_add, (bpow_IZR k) by lia. ring.
Qed.

(** integer division by a power of two, in real terms *)
Lemma div_pow2_bounds (m k : Z) :
  (0 <= k)%Z ->
  IZR (m / 2 ^ k) * bpow k <= IZR m < (IZR (m / 2 ^ k) + 1) * bpow k.
Proof.
  intros Hk. rewrite bpow_IZR by lia.
  assert (Hp : (0 < 2 ^ k)%Z) by (apply Z.pow_pos_nonneg; lia).
  pose proof (Z.div_mod m (2 ^ k) ltac:(lia)) as Hdm.
  pose proof (Z.mod_pos_bound m (2 ^ k) Hp) as Hmod.
  rewrite <- plus_IZR, <- !mult_IZR. split; [apply IZR_le | apply IZR_lt]; nia.
Qed.

(** What [rounded] is worth when it is finite. *)
Lemma rounded_finite (m2 e : Z) :
  (2 ^ 52 <= m2 <= 2 ^ 53)%Z ->
  (rounded false m2 e = S754_infinity false /\ 971 < e + 1)%Z \/
  exists m' e',
    rounded false m2 e = S754_finite false m' e' /\
    (2 ^ 52 <= Zpos m' < 2 ^ 53)%Z /\
    (e <= e' <= e + 1)%Z /\
    F2R (Zpos m') e' = F2R m2 e.
Proof.
  intros Hm. unfold rounded. rewrite pow2_52, pow2_53 in *.
  destruct (Z.ltb_spec m2 9007199254740992%Z) as [Hlt|Hge].
  - destruct (Z.leb_spec e 971); [right | left; split; [reflexivity | lia]].
    exists (Z.to_pos m2), e. rewrite Z2Pos.id by lia.
    repeat split; try lia.
  - destruct (Z.leb_spec (e + 1) 971); [right | left; split; [reflexivity | lia]].
    exists (Z.to_pos 4503599627370496), (e + 1)%Z.
    assert (m2 = 9007199254740992%Z) by lia. subst m2.
    repeat split; try lia.
    change (Z.pos (Z.to_pos 4503599627370496)) with 4503599627370496%Z.
    change 9007199254740992%Z with (4503599627370496 * 2 ^ 1)%Z.
    now rewrite F2R_shift by lia.
Qed.

Lemma div_pow2_upper (m k : Z) :
  (0 <= k)%Z -> IZR m + 1 <= (IZR (m / 2 ^ k) + 1) * bpow k.
Proof.
  intros Hk. rewrite bpow_IZR by lia.
  assert (Hp : (0 < 2 ^ k)%Z) by (apply Z.pow_pos_nonneg; lia).
  pose proof (Z.div_mod m (2 ^ k) ltac:(lia)) as Hdm.
  pose proof (Z.mod_pos_bound m (2 ^ k) Hp) as Hmod.
  rewrite <- !plus_IZR, <- !mult_IZR. apply IZR_le. nia.
Qed.

(** Rounding a positive number of at least 53 digits, in the normal range:
    the result is within one unit in the last place of any real number that
    the input mantissa approximates from below. *)
Lemma binary_round_aux_faithful (m : positive) (e : Z) (l : location) (X : R) :
  let d := Zpos (digits2_pos m) in
  (53 <= d)%Z -> (-1074 <= d + e - 53)%Z ->
  F2R (Zpos m) e <= X <= F2R (Zpos m + 1) e ->
  (binary_round_aux prec emax false (Zpos m) e l = S754_infinity false /\
   971 < e + (d - 53) + 1)%Z \/
  exists m' e',
    binary_round_aux prec emax false (Zpos m) e l = S754_finite false m' e' /\
    (2 ^ 52 <= Zpos m' < 2 ^ 53)%Z /\
    (e + (d - 53) <= e' <= e + (d - 53) + 1)%Z /\
    X - bpow (e + (d - 53)) <= F2R (Zpos m') e' <= X + bpow (e + (d - 53)).
Proof.
  intros d Hd He HX.
  destruct (binary_round_aux_normal false m e l Hd He) as [m2 [Hm2 [_ Hr]]].
  fold d in Hm2, Hr. rewrite Hr.
  pose proof (div_pow2_53 m Hd) as Hq. fold d in Hq.
  destruct (rounded_finite m2 (e + (d - 53))) as [Hinf | [m' [e' [Hfin [Hm' [He' Hv]]]]]];
    [lia | left; exact Hinf |].
  right. exists m', e'. split; [exact Hfin|]. split; [exact Hm'|]. split; [exact He'|].
  rewrite Hv. unfold F2R in *.
  destruct (div_pow2_bounds (Zpos m) (d - 53)) as [B1 _]; [lia|].
  pose proof (div_pow2_upper (Zpos m) (d - 53) ltac:(lia)) as B2.
  rewrite bpow_add.
  set (q := (Zpos m / 2 ^ (d - 53))%Z) in *.
  assert (Hm2R : IZR q <= IZR m2 <= IZR q + 1).
  { rewrite <- (plus_IZR q 1). split; apply IZR_le; lia. }
  rewrite plus_IZR in HX.
  pose proof (bpow_pos e) as Pe. pose proof (bpow_pos (d - 53)) as Pk.
  set (be := bpow e) in *. set (bk := bpow (d - 53)) in *.
  set (xm := IZR (Zpos m)) in *. set (xq := IZR q) in *. set (x2 := IZR m2) in *.
  clearbody be bk xm xq x2. clear Hv.
  assert (Pek : 0 < be * bk) by now apply Rmult_lt_0_compat.
  assert (A1 : xq * bk * be <= xm * be) by (apply Rmult_le_compat_r; lra).
  assert (A2 : (xm + 1) * be <= (xq + 1) * bk * be) by (apply Rmult_le_compat_r; lra).
  assert (A3 : xq * (be * bk) <= x2 * (be * bk)) by (apply Rmult_le_compat_r; lra).
  assert (A4 : x2 * (be * bk) <= (xq + 1) * (be * bk)) by (apply Rmult_le_compat_r; lra).
  split; lra.
Qed.

Local Open Scope Z_scope.


(** [float64(n)] is exact below 2^53. *)
Lemma binary_normalize_int (n : Z) :
  1 <= n < 2 ^ 53 ->
  exists mn en,
    binary_normalize prec emax n 0 false = S754_finite false mn en /\
    2 ^ 52 <= Zpos mn < 2 ^ 53 /\
    en = Z.log2 n - 52 /\
    Zpos mn = n * 2 ^ (- en).
Proof.
  intros Hn. destruct n as [|pn|pn]; try lia.
  cbn [binary_normalize]. unfold binary_round. rewrite fexp_value.
  destruct (digits2_pos_bounds pn) as [B1 B2].
  set (dn := Zpos (digits2_pos pn)) in *.
  assert (Hdn : 1 <= dn <= 53).
  { split; [subst dn; lia|].
    assert (dn - 1 < 53); [|lia]. apply (Z.pow_lt_mono_r_iff 2); lia. }
  assert (Hlog : Z.log2 (Zpos pn) = dn - 1).
  { apply Z.log2_unique; [lia|]. replace (Z.succ (dn - 1)) with dn by lia. lia. }
  rewrite Z.max_l by lia.
  destruct (shl_align_spec pn 0 (dn + 0 - 53)) as [S1 S2]; [lia|].
  destruct (shl_align pn 0 (dn + 0 - 53)) as [mz ez]. cbn [fst snd] in S1, S2. subst ez.
  replace (0 - (dn + 0 - 53)) with (53 - dn) in S1 by lia.
  assert (Hp : 0 < 2 ^ (53 - dn)) by (apply Z.pow_pos_nonneg; lia).
  assert (E1 : 2 ^ 52 = 2 ^ (dn - 1) * 2 ^ (53 - dn)).
  { rewrite <- Z.pow_add_r by lia. f_equal. lia. }
  assert (E2 : 2 ^ 53 = 2 ^ dn * 2 ^ (53 - dn)).
  { rewrite <- Z.pow_add_r by lia. f_equal. lia. }
  assert (Hmz : 2 ^ 52 <= Zpos mz < 2 ^ 53).
  { rewrite S1, E1, E2. split.
    - apply Z.mul_le_mono_nonneg_r; lia.
    - apply Z.mul_lt_mono_pos_r; lia. }
  assert (Hdz : Zpos (digits2_pos mz) = 53).
  { apply digits2_pos_unique; [|lia]. exact Hmz. }
  destruct (binary_round_aux_normal false mz (dn + 0 - 53) loc_Exact)
    as [m2 [_ [Hex Hr]]]; [lia | lia |].
  rewrite Hdz in Hex, Hr. specialize (Hex eq_refl eq_refl). subst m2.
  rewrite Hr. unfold rounded.
  destruct (Z.ltb_spec (Zpos mz) (2 ^ 53)); [|lia].
  destruct (Z.leb_spec (dn + 0 - 53 + (53 - 53)) 971); [|lia].
  exists mz, (dn + 0 - 53 + (53 - 53)). rewrite Pos2Z.id.
  split; [reflexivity|]. split; [exact Hmz|]. split; [lia|].
  rewrite S1. f_equal. f_equal. lia.
Qed.

Local Open Scope R_scope.

Lemma F2R_pos_bounds (m : positive) (e : Z) :
  (2 ^ 52 <= Zpos m < 2 ^ 53)%Z ->
  4503599627370496 * bpow e <= F2R (Zpos m) e < 9007199254740992 * bpow e.
Proof.
  intros [H1 H2]. unfold F2R. pose proof (bpow_pos e) as P.
  apply IZR_le in H1. apply IZR_lt in H2.
  change (IZR (2 ^ 52)) with 4503599627370496 in H1.
  change (IZR (2 ^ 53)) with 9007199254740992 in H2.
  split; [apply Rmult_le_compat_r | apply Rmult_lt_compat_r]; lra.
Qed.

(** The product of two normal numbers. *)
Lemma SFmul_faithful (mn : positive) (en : Z) (mt : positive) (et : Z) :
  (2 ^ 52 <= Zpos mn < 2 ^ 53)%Z -> (2 ^ 52 <= Zpos mt < 2 ^ 53)%Z ->
  (-1074 <= en + et + 52)%Z ->
  let X := F2R (Zpos mn) en * F2R (Zpos mt) et in
  SF64mul (S754_finite false mn en) (S754_finite false mt et) = S754_infinity false \/
  exists mR eR,
    SF64mul (S754_finite false mn en) (S754_finite false mt et) = S754_finite false mR eR /\
    (2 ^ 52 <= Zpos mR < 2 ^ 53)%Z /\
    (en + et + 52 <= eR <= en + et + 54)%Z /\
    X - bpow eR <= F2R (Zpos mR) eR <= X + bpow eR.
Proof.
  intros Hn Ht He X. unfold SF64mul, SFmul. cbn [xorb].
  destruct (digits2_pos_bounds (mn * mt)) as [B1 B2].
  set (d := Zpos (digits2_pos (mn * mt))) in *.
  rewrite Pos2Z.inj_mul in B1, B2.
  assert (Hd : (105 <= d <= 106)%Z).
  { rewrite pow2_52, pow2_53 in *. split.
    - assert (104 < d)%Z; [|lia]. apply (Z.pow_lt_mono_r_iff 2); [lia | lia |].
      change (2 ^ 104)%Z with (4503599627370496 * 4503599627370496)%Z. nia.
    - assert (d - 1 < 106)%Z; [|lia]. apply (Z.pow_lt_mono_r_iff 2); [lia | lia |].
      change (2 ^ 106)%Z with (9007199254740992 * 9007199254740992)%Z. nia. }
  destruct (binary_round_aux_faithful (mn * mt) (en + et) loc_Exact X)
    as [[Hinf _] | [mR [eR [Hfin [HmR [HeR Hv]]]]]]; fold d.
  - lia.
  - lia.
  - subst X. unfold F2R. rewrite Pos2Z.inj_mul, plus_IZR, mult_IZR, bpow_add.
    pose proof (bpow_pos en). pose proof (bpow_pos et).
    assert (0 < bpow en * bpow et) by now apply Rmult_lt_0_compat. split; nra.
  - now left.
  - right. fold d in HeR, Hv.
    exists mR, eR. split; [exact Hfin|]. split; [exact HmR|]. split; [lia|].
    assert (bpow (en + et + (d - 53)) <= bpow eR) by (apply bpow_le; lia).
    split; lra.
Qed.

Local Open Scope Z_scope.

Lemma SFdiv_core_normal (mR : positive) (eR : Z) (mt : positive) (et : Z) :
  Zpos (digits2_pos mR) = 53 -> Zpos (digits2_pos mt) = 53 ->
  -1074 <= eR - et - 53 ->
  SFdiv_core_binary prec emax (Zpos mR) eR (Zpos mt) et =
  (Zpos mR * 2 ^ 53 / Zpos mt, eR - et - 53,
   new_location (Zpos mt) ((Zpos mR * 2 ^ 53) mod Zpos mt)).
Proof.
  intros H1 H2 He. unfold SFdiv_core_binary. cbn [Zdigits2].
  rewrite H1, H2, fexp_value.
  replace (Z.min (Z.max (53 + eR - (53 + et) - 53) (-1074)) (eR - et)) with (eR - et - 53)
    by lia.
  replace (eR - et - (eR - et - 53)) with 53 by lia.
  rewrite Z.shiftl_mul_pow2 by lia.
  unfold Z.div, Z.modulo.
  destruct (Z.div_eucl (Zpos mR * 2 ^ 53) (Zpos mt)) as [q r]. reflexivity.
Qed.

Local Open Scope R_scope.

(** The quotient of two normal numbers. *)
Lemma SFdiv_faithful (mR : positive) (eR : Z) (mt : positive) (et : Z) :
  (2 ^ 52 <= Zpos mR < 2 ^ 53)%Z -> (2 ^ 52 <= Zpos mt < 2 ^ 53)%Z ->
  (-1074 <= eR - et - 53)%Z -> (eR - et - 53 + 2 <= 971)%Z ->
  let X := F2R (Zpos mR) eR / F2R (Zpos mt) et in
  exists mQ eQ,
    SF64div (S754_finite false mR eR) (S754_finite false mt et) = S754_finite false mQ eQ /\
    (2 ^ 52 <= Zpos mQ < 2 ^ 53)%Z /\
    (eR - et - 53 <= eQ <= eR - et - 53 + 2)%Z /\
    X - bpow eQ <= F2R (Zpos mQ) eQ <= X + bpow eQ.
Proof.
  intros HR Ht He Hmax X.
  assert (DR : Zpos (digits2_pos mR) = 53%Z) by (apply digits2_pos_unique; [exact HR | lia]).
  assert (Dt : Zpos (digits2_pos mt) = 53%Z) by (apply digits2_pos_unique; [exact Ht | lia]).
  unfold SF64div, SFdiv. rewrite (SFdiv_core_normal mR eR mt et DR Dt He). cbn [xorb].
  set (a := (Zpos mR * 2 ^ 53)%Z).
  pose proof (Z.div_mod a (Zpos mt) ltac:(lia)) as Hdm.
  pose proof (Z.mod_pos_bound a (Zpos mt) ltac:(lia)) as Hmod.
  set (q := (a / Zpos mt)%Z) in *. set (r := (a mod Zpos mt)%Z) in *.
  rewrite pow2_52, pow2_53 in HR, Ht.
  assert (Hq : (2 ^ 52 <= q < 2 ^ 54)%Z).
  { change (2 ^ 52)%Z with 4503599627370496%Z. change (2 ^ 54)%Z with 18014398509481984%Z.
    subst a. rewrite pow2_53 in Hdm. nia. }
  destruct q as [|pq|pq] eqn:Eq; [lia | | lia]. rewrite <- Eq in *.
  destruct (digits2_pos_bounds pq) as [B1 B2]. rewrite <- Eq in B1, B2.
  set (d := Zpos (digits2_pos pq)) in *.
  assert (Hd : (53 <= d <= 54)%Z).
  { split.
    - assert (52 < d)%Z; [|lia]. apply (Z.pow_lt_mono_r_iff 2); lia.
    - assert (d - 1 < 54)%Z; [|lia]. apply (Z.pow_lt_mono_r_iff 2); lia. }
  assert (HX : F2R q (eR - et - 53) <= X <= F2R (q + 1) (eR - et - 53)).
  { subst X. unfold F2R.
    assert (Eb : bpow eR = bpow (eR - et - 53) * bpow et * IZR (2 ^ 53)).
    { rewrite <- (bpow_IZR 53), <- !bpow_add by lia. f_equal. lia. }
    rewrite Eb. pose proof (bpow_pos et) as Pt. pose proof (bpow_pos (eR - et - 53)) as Pe.
    assert (Pm : 0 < IZR (Zpos mt)) by (apply IZR_lt; lia).
    replace (IZR (Zpos mR) * (bpow (eR - et - 53) * bpow et * IZR (2 ^ 53)) /
             (IZR (Zpos mt) * bpow et))
      with (IZR a / IZR (Zpos mt) * bpow (eR - et - 53))
      by (subst a; rewrite mult_IZR; field; lra).
    assert (Ha : IZR q <= IZR a / IZR (Zpos mt) <= IZR (q + 1)).
    { split.
      - apply Rmult_le_reg_r with (IZR (Zpos mt)); [exact Pm|].
        replace (IZR a / IZR (Zpos mt) * IZR (Zpos mt)) with (IZR a) by (field; lra).
        rewrite <- mult_IZR. apply IZR_le. lia.
      - apply Rmult_le_reg_r with (IZR (Zpos mt)); [exact Pm|].
        replace (IZR a / IZR (Zpos mt) * IZR (Zpos mt)) with (IZR a) by (field; lra).
        rewrite <- mult_IZR. apply IZR_le. nia. }
    split; apply Rmult_le_compat_r; lra. }
  rewrite Eq in HX.
  destruct (binary_round_aux_faithful pq (eR - et - 53)
              (new_location (Zpos mt) r) X)
    as [[_ Hinf] | [mQ [eQ [Hfin [HmQ [HeQ Hv]]]]]]; fold d; try lia.
  - exact HX.
  - fold d in HeQ, Hv. exists mQ, eQ. split; [rewrite Eq; exact Hfin|].
    split; [exact HmQ|]. split; [lia|].
    assert (bpow (eR - et - 53 + (d - 53)) <= bpow eQ) by (apply bpow_le; lia).
    split; lra.
Qed.

Lemma bpow_m53 : bpow (-53) * 9007199254740992 = 1.
Proof.
  change 9007199254740992 with (IZR (2 ^ 53)). rewrite <- (bpow_IZR 53) by lia.
  exact (bpow_opp 53).
Qed.

(** Adding one half to a normal number between 1/2 and 2^51. *)
Lemma SFadd_half_faithful (mQ : positive) (eQ : Z) :
  (2 ^ 52 <= Zpos mQ < 2 ^ 53)%Z -> (-53 <= eQ <= -2)%Z ->
  let X := F2R (Zpos mQ) eQ + / 2 in
  exists mS eS,
    SF64add (S754_finite false mQ eQ) (S754_finite false 4503599627370496 (-53))
      = S754_finite false mS eS /\
    (2 ^ 52 <= Zpos mS < 2 ^ 53)%Z /\
    (eS <= eQ + 2)%Z /\
    X - 2 * bpow eQ <= F2R (Zpos mS) eS <= X + 2 * bpow eQ.
Proof.
  intros HQ He X. unfold SF64add, SFadd. cbn [cond_Zopp].
  rewrite Z.min_r by lia.
  destruct (shl_align_spec mQ eQ (-53)) as [S1 _]; [lia|].
  destruct (shl_align_spec 4503599627370496 (-53) (-53)) as [S2 _]; [lia|].
  rewrite S1, S2. clear S1 S2.
  replace (eQ - -53)%Z with (eQ + 53)%Z by lia. replace (-53 - -53)%Z with 0%Z by lia.
  rewrite Z.pow_0_r, Z.mul_1_r.
  assert (Hp : (0 < 2 ^ (eQ + 53))%Z) by (apply Z.pow_pos_nonneg; lia).
  set (z := (Zpos mQ * 2 ^ (eQ + 53) + 4503599627370496)%Z).
  assert (Hz1 : (2 ^ 52 <= z)%Z) by (subst z; rewrite pow2_52; nia).
  assert (Hz2 : (z < 2 ^ (eQ + 107))%Z).
  { replace (eQ + 107)%Z with (1 + 53 + (eQ + 53))%Z by lia.
    rewrite !Z.pow_add_r by lia. rewrite pow2_53 in *. change (2 ^ 1)%Z with 2%Z.
    subst z. nia. }
  destruct z as [|pz|pz] eqn:Ez; [lia | | lia]. rewrite <- Ez in Hz1, Hz2.
  cbn [binary_normalize]. unfold binary_round. rewrite fexp_value.
  destruct (digits2_pos_bounds pz) as [B1 B2]. rewrite <- Ez in B1, B2.
  set (d := Zpos (digits2_pos pz)) in *.
  assert (Hd : (53 <= d <= eQ + 107)%Z).
  { split.
    - assert (52 < d)%Z; [|lia]. apply (Z.pow_lt_mono_r_iff 2); lia.
    - assert (d - 1 < eQ + 107)%Z; [|lia]. apply (Z.pow_lt_mono_r_iff 2); lia. }
  rewrite shl_align_id by lia.
  assert (HX : X = F2R (Zpos pz) (-53)).
  { rewrite <- Ez. subst X.
    assert (E1 : F2R (Zpos mQ * 2 ^ (eQ + 53)) (-53) = F2R (Zpos mQ) eQ).
    { rewrite F2R_shift by lia. f_equal. lia. }
    rewrite <- E1. unfold z, F2R. rewrite plus_IZR.
    pose proof bpow_m53. lra. }
  destruct (binary_round_aux_faithful pz (-53) loc_Exact X)
    as [[_ Hinf] | [mS [eS [Hfin [HmS [HeS Hv]]]]]]; fold d; try lia.
  - rewrite HX. unfold F2R. rewrite plus_IZR. pose proof (bpow_pos (-53)). split; nra.
  - fold d in HeS, Hv. exists mS, eS. split; [exact Hfin|]. split; [exact HmS|].
    split; [lia|].
    assert (bpow (-53 + (d - 53)) <= bpow (eQ + 1)) by (apply bpow_le; lia).
    assert (bpow (eQ + 1) = 2 * bpow eQ).
    { rewrite bpow_add. replace (bpow 1) with 2 by (symmetry; exact (powerRZ_1 2)). ring. }
    split; lra.
Qed.

Lemma F2R_int (n e : Z) : (e <= 0)%Z -> F2R (n * 2 ^ (- e)) e = IZR n.
Proof.
  intros He. rewrite F2R_shift by lia. replace (e + - e)%Z with 0%Z by lia.
  unfold F2R. rewrite bpow_0. ring.
Qed.

(** The integer part of a positive number between [n] and [n + 1]. *)
Lemma shiftl_of_bounds (m : positive) (e n : Z) :
  (e <= 0)%Z -> IZR n <= F2R (Zpos m) e < IZR n + 1 -> Z.shiftl (Zpos m) e = n.
Proof.
  intros He [H1 H2]. rewrite Z.shiftl_div_pow2 by lia.
  assert (Hp : (0 < 2 ^ (- e))%Z) by (apply Z.pow_pos_nonneg; lia).
  assert (Hb : bpow e * IZR (2 ^ (- e)) = 1).
  { rewrite <- bpow_IZR by lia. rewrite Rmult_comm. apply bpow_opp. }
  assert (Pp : 0 < IZR (2 ^ (- e))) by (apply IZR_lt; lia).
  unfold F2R in H1, H2.
  assert (G1 : (n * 2 ^ (- e) <= Zpos m)%Z).
  { apply le_IZR. rewrite mult_IZR.
    replace (IZR (Zpos m)) with (IZR (Zpos m) * bpow e * IZR (2 ^ (- e)))
      by (rewrite Rmult_assoc, Hb; ring).
    apply Rmult_le_compat_r; lra. }
  assert (G2 : (Zpos m < (n + 1) * 2 ^ (- e))%Z).
  { apply lt_IZR. rewrite mult_IZR, plus_IZR.
    replace (IZR (Zpos m)) with (IZR (Zpos m) * bpow e * IZR (2 ^ (- e)))
      by (rewrite Rmult_assoc, Hb; ring).
    apply Rmult_lt_compat_r; lra. }
  symmetry. apply Z.div_unique with (Zpos m - n * 2 ^ (- e))%Z; lia.
Qed.

(** The error analysis: two roundings, each within one unit in the last
    place of a 53-bit result, move a tick count below 2^48 by at most 1/4. *)
Lemma tick_count_error (n t Rv x Q uR uQ : R) :
  1 <= n <= 281474976710655 -> 0 < t ->
  Rv = x * t ->
  n * t - uR <= Rv <= n * t + uR -> 4503599627370496 * uR <= Rv ->
  x - uQ <= Q <= x + uQ -> 4503599627370496 * uQ <= Q ->
  n - / 4 <= Q <= n + / 4.
Proof.
  intros Hn Ht HRv HR HuR HQ HuQ. subst Rv.
  assert (H1 : (x - n - x / 4503599627370496) * t <= 0) by nra.
  assert (H2 : 0 <= (x - n + x / 4503599627370496) * t) by nra.
  assert (H3 : x - n - x / 4503599627370496 <= 0) by nra.
  assert (H4 : 0 <= x - n + x / 4503599627370496) by nra.
  split; lra.
Qed.

(** [float64(n) * t], divided by [t] again and moved up by one half, has
    integer part [n]: for a positive normal tick [t] and a tick count
    [1 <= n < 2^48], provided the product did not overflow. *)
Lemma renormalize_tick_count (n : Z) (mt : positive) (et : Z) :
  (1 <= n < 2 ^ 48)%Z ->
  (2 ^ 52 <= Zpos mt < 2 ^ 53)%Z -> (-1074 <= et <= 971)%Z ->
  let T := S754_finite false mt et in
  let N := binary_normalize prec emax n 0 false in
  SF64mul N T <> S754_infinity false ->
  SFtrunc (SF64add (SF64div (SF64mul N T) T) (S754_finite false 4503599627370496 (-53)))
  = Some n.
Proof.
  intros Hn Ht Het T N Hfin.
  destruct (binary_normalize_int n) as [mn [en [HN [Hmn [Hen Hmnv]]]]].
  { change (2 ^ 53)%Z with 9007199254740992%Z.
    change (2 ^ 48)%Z with 281474976710656%Z in Hn. lia. }
  assert (Hlog : (0 <= Z.log2 n <= 47)%Z).
  { split; [apply Z.log2_nonneg|].
    assert (Z.log2 n < 48)%Z; [|lia]. apply Z.log2_lt_pow2; lia. }
  assert (HNv : F2R (Zpos mn) en = IZR n).
  { rewrite Hmnv. apply F2R_int. lia. }
  subst N. rewrite HN in *. subst T.
  destruct (SFmul_faithful mn en mt et Hmn Ht ltac:(lia))
    as [Hinf | [mR [eR [HR [HmR [HeR HRv]]]]]]; [contradiction|].
  rewrite HR. rewrite HNv in HRv.
  destruct (SFdiv_faithful mR eR mt et HmR Ht ltac:(lia) ltac:(lia))
    as [mQ [eQ [HQ [HmQ [HeQ HQv]]]]].
  rewrite HQ.
  destruct (SFadd_half_faithful mQ eQ HmQ ltac:(lia)) as [mS [eS [HS [HmS [HeS HSv]]]]].
  rewrite HS. cbn [SFtrunc cond_Zopp]. f_equal.
  (* the values *)
  pose proof (F2R_pos_bounds mt et Ht) as Bt.
  pose proof (F2R_pos_bounds mR eR HmR) as BR.
  pose proof (F2R_pos_bounds mQ eQ HmQ) as BQ.
  pose proof (bpow_pos et) as Pt. pose proof (bpow_pos eR) as PR.
  pose proof (bpow_pos eQ) as PQ.
  set (t := F2R (Zpos mt) et) in *. set (Rv := F2R (Zpos mR) eR) in *.
  set (Q := F2R (Zpos mQ) eQ) in *.
  assert (Htpos : 0 < t) by lra.
  assert (HnR : 1 <= IZR n <= 281474976710655).
  { split; [apply (IZR_le 1) | apply (IZR_le n 281474976710655)];
      change (2 ^ 48)%Z with 281474976710656%Z in Hn; lia. }
  assert (HQn : IZR n - / 4 <= Q <= IZR n + / 4).
  { apply (tick_count_error (IZR n) t Rv (Rv / t) Q (bpow eR) (bpow eQ)); try lra.
    field. lra. }
  apply shiftl_of_bounds; [lia|].
  fold Q in HSv. lra.
Qed.

Local Close Scope R_scope.
Local Open Scope Z_scope.

Section Thresholds.

Local Open Scope float_scope.

Variable x : float.

Lemma above_m11_not_skip : (-11.0 <? x) = true -> (x <=? -11.0) = false.
Proof. intros H. float_order. Qed.

Lemma above_m10_not_skip : (-10.0 <? x) = true -> (x <=? -11.0) = false.
Proof. intros H. float_order. Qed.

Lemma above_m5_not_skip : (-5.0 <? x) = true -> (x <=? -11.0) = false.
Proof. intros H. float_order. Qed.

Lemma above_m4_5_not_skip : (-4.5 <? x) = true -> (x <=? -11.0) = false.
Proof. intros H. float_order. Qed.

Lemma upto_m10_not_above_m5 : (x <=? -10.0) = true -> (-5.0 <? x) = false.
Proof. intros H. float_order. Qed.

Lemma upto_m10_not_above_m10 : (x <=? -10.0) = true -> (-10.0 <? x) = false.
Proof. intros H. float_order. Qed.

Lemma upto_m5_not_above_m5 : (x <=? -5.0) = true -> (-5.0 <? x) = false.
Proof. intros H. float_order. Qed.

Lemma above_m5_not_upto_m5 : (-5.0 <? x) = true -> (x <=? -5.0) = false.
Proof. intros H. float_order. Qed.

Lemma above_m4_5_not_upto_m4_5 : (-4.5 <? x) = true -> (x <=? -4.5) = false.
Proof. intros H. float_order. Qed.

Lemma above_m4_5_not_upto_m5 : (-4.5 <? x) = true -> (x <=? -5.0) = false.
Proof. intros H. float_order. Qed.

Lemma above_m4_5_above_m5 : (-4.5 <? x) = true -> (-5.0 <? x) = true.
Proof. intros H. float_order. Qed.

Lemma above_m11_upto_m10_above : (x <=? -10.0) = true -> (x <=? -5.0) = true.
Proof. intros H. float_order. Qed.

End Thresholds.

Section BotFacts.

Context {RT : Runtime}.
Variable exchange : Exchange.

Local Open Scope float_scope.

(** ** The gateway calls, one by one *)

Lemma executeBuyOrder_run (symbol : string) (qty : float) (s : State) :
  executeBuyOrder exchange symbol qty s =
  if credentialsConfigured (bot s)
  then (marketBuy exchange (log s) symbol qty,
        {| bot := bot s; log := log s ++ [EvMarketBuy symbol qty] |})
  else (Err "Binance API credentials not configured", s).
Proof.
  unfold executeBuyOrder, bind, getBot, getLog, emit, ret.
  destruct (credentialsConfigured (bot s)); reflexivity.
Qed.

Lemma executeLimitSellOrder_run (symbol : string) (qty price : float) (s : State) :
  executeLimitSellOrder exchange symbol qty price s =
  if credentialsConfigured (bot s)
  then (limitSell exchange (log s) symbol qty price,
        {| bot := bot s; log := log s ++ [EvLimitSell symbol qty price] |})
  else (Err "Binance API credentials not configured", s).
Proof.
  unfold executeLimitSellOrder, bind, getBot, getLog, emit, ret.
  destruct (credentialsConfigured (bot s)); reflexivity.
Qed.

Lemma getSymbolFilters_run (symbol : string) (s : State) :
  getSymbolFilters exchange symbol s =
  (exchangeInfo exchange (log s) symbol,
   {| bot := bot s; log := log s ++ [EvExchangeInfo symbol] |}).
Proof. reflexivity. Qed.

Lemma executeBuyOrder_bot (symbol : string) (qty : float) (s : State) :
  bot (exec (executeBuyOrder exchange symbol qty) s) = bot s.
Proof.
  unfold exec. rewrite executeBuyOrder_run.
  destruct (credentialsConfigured (bot s)); reflexivity.
Qed.

Lemma executeLimitSellOrder_bot (symbol : string) (qty price : float) (s : State) :
  bot (exec (executeLimitSellOrder exchange symbol qty price) s) = bot s.
Proof.
  unfold exec. rewrite executeLimitSellOrder_run.
  destruct (credentialsConfigured (bot s)); reflexivity.
Qed.

(** The retry loop never touches the bot. *)
Lemma placeSellWithRetry_bot (n : nat) (symbol : string) (qty price : float) (s : State) :
  bot (exec (placeSellWithRetry exchange n symbol qty price) s) = bot s.
Proof.
  revert s. induction n as [|n IH]; intros s; [reflexivity|].
  unfold exec in *. cbn [placeSellWithRetry]. unfold bind at 1.
  pose proof (executeLimitSellOrder_bot symbol qty price s) as Hb. unfold exec in Hb.
  destruct (executeLimitSellOrder exchange symbol qty price s) as [r s1]. cbn [snd] in Hb.
  destruct r as [resp|e]; [exact Hb|].
  destruct n as [|n']; [exact Hb|].
  unfold bind at 1, sleep, emit. cbn [fst snd].
  rewrite IH. cbn [bot]. exact Hb.
Qed.

Lemma attachSellOrder_bot (coin : OptimizedTicker) (qty : float)
    (position : TradingPosition) (s : State) :
  bot (exec (attachSellOrder exchange coin qty position) s) = bot s.
Proof.
  unfold exec, attachSellOrder. unfold bind at 1. rewrite getSymbolFilters_run.
  destruct (exchangeInfo exchange (log s) (tickerSymbol coin)) as [filters|e]; [|reflexivity].
  unfold bind.
  match goal with |- context [placeSellWithRetry ?x ?n ?sy ?q ?p ?st] =>
    pose proof (placeSellWithRetry_bot n sy q p st) as Hb; unfold exec in Hb;
    destruct (placeSellWithRetry x n sy q p st) as [r s2] end.
  cbn [snd bot] in Hb. destruct r; exact Hb.
Qed.

(** ** One call of [executeBuy], step by step *)

Lemma executeBuy_run (coin : OptimizedTicker) (d : float) (s : State) :
  executeBuy exchange coin d s =
  if AvailableBudget (bot s) <? InvestmentAmount (bot s) then (tt, s)
  else
    match executeBuyOrder exchange (tickerSymbol coin) (InvestmentAmount (bot s)) s with
    | (Err _, s1) => (tt, s1)
    | (Ok orderResp, s1) =>
        let p0 := initialPosition (bot s) coin d orderResp (List.length (log s1)) in
        let s2 := {| bot := bot s1; log := log s1 ++ [EvSleep 3] |} in
        let (p, s3) := attachSellOrder exchange coin (Quantity p0) p0 s2 in
        (tt, {| bot := recordedBot (bot s3) p; log := log s3 |})
    end.
Proof.
  unfold executeBuy. unfold bind at 1. unfold getBot at 1.
  destruct (AvailableBudget (bot s) <? InvestmentAmount (bot s)); [reflexivity|].
  unfold bind at 1.
  destruct (executeBuyOrder exchange (tickerSymbol coin) (InvestmentAmount (bot s)) s)
    as [[orderResp|e] s1]; [|reflexivity].
  unfold bind at 1. unfold getLog at 1. unfold bind at 1. unfold sleep, emit at 1.
  unfold bind at 1. cbv zeta.
  destruct (attachSellOrder exchange coin _ _ _) as [p s3].
  reflexivity.
Qed.

(** ** The budget guard *)

(** C3. With an available budget below the investment unit, [executeBuy]
    returns at once: the whole state (bot and event log) is the one it was
    called in, so no position is appended, budget and id counter keep their
    values, and no request reaches the exchange. *)
Theorem executeBuy_insufficient_funds (coin : OptimizedTicker) (d : float) (s : State) :
  (AvailableBudget (bot s) <? InvestmentAmount (bot s)) = true ->
  executeBuy exchange coin d s = (tt, s) /\
  gateway_calls (log (exec (executeBuy exchange coin d) s)) = gateway_calls (log s).
Proof.
  intros Hguard. unfold exec. rewrite executeBuy_run, Hguard. split; reflexivity.
Qed.

Lemma executeBuy_buy_error_frame (coin : OptimizedTicker) (d : float) (s : State)
    (msg : string) :
  (AvailableBudget (bot s) <? InvestmentAmount (bot s)) = false ->
  eval (executeBuyOrder exchange (tickerSymbol coin) (InvestmentAmount (bot s))) s = Err msg ->
  bot (exec (executeBuy exchange coin d) s) = bot s /\
  log (exec (executeBuy exchange coin d) s) =
  log (exec (executeBuyOrder exchange (tickerSymbol coin) (InvestmentAmount (bot s))) s).
Proof.
  intros Hguard Hbuy. unfold exec, eval in *. rewrite executeBuy_run, Hguard.
  pose proof (executeBuyOrder_bot (tickerSymbol coin) (InvestmentAmount (bot s)) s) as Hb.
  unfold exec in Hb.
  destruct (executeBuyOrder exchange (tickerSymbol coin) (InvestmentAmount (bot s)) s)
    as [r s1].
  cbn [fst snd] in *. subst r. split; [exact Hb | reflexivity].
Qed.

(** C4. When the budget guard passes and the market buy fails, [executeBuy]
    stops there: the bot (positions, available budget, id counter and all
    other fields) is exactly as before the call, and nothing but the buy
    request itself was logged. *)
Theorem executeBuy_buy_error (coin : OptimizedTicker) (d : float) (s : State) (msg : string) :
  (AvailableBudget (bot s) <? InvestmentAmount (bot s)) = false ->
  eval (executeBuyOrder exchange (tickerSymbol coin) (InvestmentAmount (bot s))) s = Err msg ->
  bot (exec (executeBuy exchange coin d) s) = bot s /\
  log (exec (executeBuy exchange coin d) s) =
  log (exec (executeBuyOrder exchange (tickerSymbol coin) (InvestmentAmount (bot s))) s).
Proof.
  intros Hguard Hbuy. unfold exec, eval in *. rewrite executeBuy_run, Hguard.
  pose proof (executeBuyOrder_bot (tickerSymbol coin) (InvestmentAmount (bot s)) s) as Hb.
  unfold exec in Hb.
  destruct (executeBuyOrder exchange (tickerSymbol coin) (InvestmentAmount (bot s)) s)
    as [r s1].
  cbn [fst snd] in *. subst r. split; [exact Hb | reflexivity].
Qed.

(** ** Accepted buys *)

Lemma wrap64_succ (z : Z) :
  (int64_min <= z < int64_max)%Z -> wrap64 (z + 1) = (z + 1)%Z.
Proof.
  unfold int64_min, int64_max, wrap64. intros H.
  rewrite Z.mod_small; lia.
Qed.

(** What [attachSellOrder] returns: the position it was given unless a limit
    sell was accepted. *)
Lemma attachSellOrder_run (coin : OptimizedTicker) (qty : float)
    (position : TradingPosition) (s : State) :
  eval (attachSellOrder exchange coin qty position) s =
  match eval (getSymbolFilters exchange (tickerSymbol coin)) s with
  | Err _ => position
  | Ok filters =>
      let rounded := roundToTickSize (TargetSellPrice position) (TickSize filters) in
      match eval (placeSellWithRetry exchange maxRetries (tickerSymbol coin) qty rounded)
                 (exec (getSymbolFilters exchange (tickerSymbol coin)) s) with
      | Err _ => position
      | Ok sellOrderResp => withSellOrder position (OrderID sellOrderResp) rounded
      end
  end.
Proof.
  unfold eval, exec, attachSellOrder. unfold bind at 1.
  destruct (getSymbolFilters exchange (tickerSymbol coin) s) as [[filters|e] s1];
    [|reflexivity].
  cbn [fst snd]. unfold bind at 1.
  destruct (placeSellWithRetry exchange maxRetries _ _ _ s1) as [[resp|e] s2]; reflexivity.
Qed.


(** The bot after an accepted buy. *)
Lemma executeBuy_accepted_run (coin : OptimizedTicker) (d : float) (s : State)
    (orderResp : OrderResponse) :
  (AvailableBudget (bot s) <? InvestmentAmount (bot s)) = false ->
  eval (executeBuyOrder exchange (tickerSymbol coin) (InvestmentAmount (bot s))) s
    = Ok orderResp ->
  let lookup :=
    {| bot := bot s;
       log := log s ++ [EvMarketBuy (tickerSymbol coin) (InvestmentAmount (bot s));
                        EvSleep 3] |} in
  let p0 := initialPosition (bot s) coin d orderResp (S (List.length (log s))) in
  bot (exec (executeBuy exchange coin d) s) =
  recordedBot (bot s) (eval (attachSellOrder exchange coin (Quantity p0) p0) lookup).
Proof.
  intros Hguard Hbuy lookup p0.
  unfold exec, eval in Hbuy |- *. rewrite executeBuy_run, Hguard.
  rewrite executeBuyOrder_run in Hbuy |- *.
  destruct (credentialsConfigured (bot s)); [|discriminate Hbuy].
  cbn [fst] in Hbuy. rewrite Hbuy. cbv zeta. cbn [bot log].
  rewrite length_app, Nat.add_comm. cbn [List.length Nat.add].
  rewrite <- app_assoc. cbn [app]. fold p0. fold lookup.
  pose proof (attachSellOrder_bot coin (Quantity p0) p0 lookup) as Ha.
  unfold exec in Ha.
  destruct (attachSellOrder exchange coin (Quantity p0) p0 lookup) as [p s3].
  cbn [fst snd bot] in *. now rewrite Ha.
Qed.

(** C5, as the code does it.  An accepted buy (the guard passes and the
    market buy succeeds) appends exactly one position, applies
    [AvailableBudget -= InvestmentAmount] once in [float64], so that the new
    budget is the rounded difference, and applies [NextPositionID++] once on
    64 bits, which is the counter plus one below the largest [int64]; all
    three together and nothing else: the resulting bot is [recordedBot] of
    the bot before.  This also holds when the rules lookup fails or every
    limit sell fails; the position then has no active sell order and
    sell-order id 0. *)
Theorem executeBuy_accepted (coin : OptimizedTicker) (d : float) (s : State)
    (orderResp : OrderResponse) :
  (AvailableBudget (bot s) <? InvestmentAmount (bot s)) = false ->
  eval (executeBuyOrder exchange (tickerSymbol coin) (InvestmentAmount (bot s))) s
    = Ok orderResp ->
  let b' := bot (exec (executeBuy exchange coin d) s) in
  let symbol := tickerSymbol coin in
  let lookup :=
    {| bot := bot s;
       log := log s ++ [EvMarketBuy symbol (InvestmentAmount (bot s)); EvSleep 3] |} in
  let p0 := initialPosition (bot s) coin d orderResp (S (List.length (log s))) in
  exists position,
    b' = recordedBot (bot s) position /\
    Positions b' = Positions (bot s) ++ [position] /\
    AvailableBudget b' = AvailableBudget (bot s) - InvestmentAmount (bot s) /\
    NextPositionID b' = wrap64 (NextPositionID (bot s) + 1) /\
    ((int64_min <= NextPositionID (bot s) < int64_max)%Z ->
     NextPositionID b' = (NextPositionID (bot s) + 1)%Z) /\
    TotalBudget b' = TotalBudget (bot s) /\
    InvestmentAmount b' = InvestmentAmount (bot s) /\
    ID position = NextPositionID (bot s) /\
    position = eval (attachSellOrder exchange coin (Quantity p0) p0) lookup /\
    (is_ok (eval (getSymbolFilters exchange symbol) lookup) = false ->
     position = p0 /\ HasActiveSellOrder position = false /\ SellOrderID position = 0%Z) /\
    (forall filters,
       eval (getSymbolFilters exchange symbol) lookup = Ok filters ->
       is_ok (eval (placeSellWithRetry exchange maxRetries symbol (Quantity p0)
                      (roundToTickSize (TargetSellPrice p0) (TickSize filters)))
                   (exec (getSymbolFilters exchange symbol) lookup)) = false ->
       position = p0 /\ HasActiveSellOrder position = false /\ SellOrderID position = 0%Z).
Proof.
  intros Hguard Hbuy b' symbol lookup p0. subst b'.
  rewrite (executeBuy_accepted_run coin d s orderResp Hguard Hbuy). cbv zeta.
  fold symbol. fold lookup. fold p0.
  pose proof (attachSellOrder_run coin (Quantity p0) p0 lookup) as Hr. fold symbol in Hr.
  set (p := eval (attachSellOrder exchange coin (Quantity p0) p0) lookup) in *.
  exists p.
  assert (Hid : ID p = NextPositionID (bot s)).
  { rewrite Hr.
    destruct (eval (getSymbolFilters exchange symbol) lookup); [|reflexivity].
    cbv zeta. destruct (eval (placeSellWithRetry _ _ _ _ _) _); reflexivity. }
  assert (Hdegraded : forall q : TradingPosition,
            q = p0 -> q = p0 /\ HasActiveSellOrder q = false /\ SellOrderID q = 0%Z).
  { intros q ->. repeat split. }
  split; [reflexivity|]. split; [reflexivity|]. split; [reflexivity|].
  split; [reflexivity|].
  split; [intros Hrange; cbn [recordedBot NextPositionID]; now apply wrap64_succ|].
  split; [reflexivity|]. split; [reflexivity|]. split; [exact Hid|].
  split; [reflexivity|]. split.
  - intros Hfail. apply Hdegraded. rewrite Hr.
    destruct (eval (getSymbolFilters exchange symbol) lookup); [discriminate | reflexivity].
  - intros filters Hfilters Hfail. apply Hdegraded. rewrite Hr.
    rewrite Hfilters. cbv zeta.
    destruct (eval (placeSellWithRetry _ _ _ _ _) _); [discriminate | reflexivity].
Qed.

(** ** The retry loop *)

Lemma placeSellWithRetry_step (n : nat) (symbol : string) (qty price : float) (s : State) :
  credentialsConfigured (bot s) = true ->
  placeSellWithRetry exchange (S n) symbol qty price s =
  let s1 := {| bot := bot s; log := log s ++ [EvLimitSell symbol qty price] |} in
  match limitSell exchange (log s) symbol qty price with
  | Ok resp => (Ok resp, s1)
  | Err e =>
      match n with
      | O => (Err e, s1)
      | S _ => placeSellWithRetry exchange n symbol qty price
                 {| bot := bot s; log := log s1 ++ [EvSleep 2] |}
      end
  end.
Proof.
  intros Hcred. cbn [placeSellWithRetry]. unfold bind at 1.
  rewrite executeLimitSellOrder_run, Hcred. cbv zeta.
  destruct (limitSell exchange (log s) symbol qty price) as [resp|e]; [reflexivity|].
  destruct n; reflexivity.
Qed.

(** At most [n] limit sells are submitted by a loop allowed [n] attempts. *)
Lemma placeSellWithRetry_attempts (n : nat) (symbol : string) (qty price : float) (s : State) :
  exists added,
    log (exec (placeSellWithRetry exchange n symbol qty price) s) = log s ++ added /\
    (List.length (filter is_limit_sell added) <= n)%nat.
Proof.
  revert s. induction n as [|n IH]; intros s.
  - exists []. split; [cbn; now rewrite app_nil_r | cbn; lia].
  - unfold exec. cbn [placeSellWithRetry]. unfold bind at 1.
    rewrite executeLimitSellOrder_run.
    destruct (credentialsConfigured (bot s)).
    + destruct (limitSell exchange (log s) symbol qty price) as [resp|e].
      * exists [EvLimitSell symbol qty price]. split; [reflexivity | cbn; lia].
      * destruct n as [|n'].
        -- exists [EvLimitSell symbol qty price]. split; [reflexivity | cbn; lia].
        -- unfold bind at 1, sleep, emit. cbn [fst snd bot log].
           destruct (IH {| bot := bot s;
                           log := (log s ++ [EvLimitSell symbol qty price]) ++ [EvSleep 2] |})
             as [added [Hlog Hlen]].
           unfold exec in Hlog. cbn [log] in Hlog. rewrite Hlog.
           exists ([EvLimitSell symbol qty price; EvSleep 2] ++ added). split.
           ++ now rewrite <- !app_assoc.
           ++ cbn [app filter is_limit_sell List.length]. lia.
    + destruct n as [|n'].
      * exists []. split; [cbn; now rewrite app_nil_r | cbn; lia].
      * unfold bind at 1, sleep, emit. cbn [fst snd bot log].
        destruct (IH {| bot := bot s; log := log s ++ [EvSleep 2] |})
          as [added [Hlog Hlen]].
        unfold exec in Hlog. cbn [log] in Hlog. rewrite Hlog.
        exists ([EvSleep 2] ++ added). split.
        ++ now rewrite <- !app_assoc.
        ++ cbn [app filter is_limit_sell List.length]. lia.
Qed.

(** C7. The retry loop around the limit sell, run with [maxRetries = 3] by a
    bot whose credentials are configured.  It submits at most three limit
    sells, waits two seconds after each failure but the last, and stops at
    the first success: a first or second success is returned at once; two
    failures followed by a success make exactly three attempts and return the
    success; three failures make exactly three attempts and return the error
    of the third. *)
Theorem placeSellWithRetry_spec (symbol : string) (qty price : float) (s : State) :
  credentialsConfigured (bot s) = true ->
  let run := placeSellWithRetry exchange maxRetries symbol qty price s in
  let sell := EvLimitSell symbol qty price in
  let r1 := limitSell exchange (log s) symbol qty price in
  let r2 := limitSell exchange (log s ++ [sell; EvSleep 2]) symbol qty price in
  let r3 := limitSell exchange (log s ++ [sell; EvSleep 2; sell; EvSleep 2]) symbol qty price in
  bot (snd run) = bot s /\
  (List.length (filter is_limit_sell (log (snd run))) <=
   List.length (filter is_limit_sell (log s)) + 3)%nat /\
  (forall resp, r1 = Ok resp ->
     run = (Ok resp, {| bot := bot s; log := log s ++ [sell] |})) /\
  (forall e1 resp, r1 = Err e1 -> r2 = Ok resp ->
     run = (Ok resp, {| bot := bot s; log := log s ++ [sell; EvSleep 2; sell] |})) /\
  (forall e1 e2 resp, r1 = Err e1 -> r2 = Err e2 -> r3 = Ok resp ->
     run = (Ok resp,
            {| bot := bot s; log := log s ++ [sell; EvSleep 2; sell; EvSleep 2; sell] |})) /\
  (forall e1 e2 e3, r1 = Err e1 -> r2 = Err e2 -> r3 = Err e3 ->
     run = (Err e3,
            {| bot := bot s; log := log s ++ [sell; EvSleep 2; sell; EvSleep 2; sell] |})).
Proof.
  intros Hcred run sell r1 r2 r3.
  assert (Hrun : run =
    match r1 with
    | Ok resp => (Ok resp, {| bot := bot s; log := log s ++ [sell] |})
    | Err _ =>
      match r2 with
      | Ok resp => (Ok resp, {| bot := bot s; log := log s ++ [sell; EvSleep 2; sell] |})
      | Err _ =>
        (r3, {| bot := bot s; log := log s ++ [sell; EvSleep 2; sell; EvSleep 2; sell] |})
      end
    end).
  { subst run r1 r2 r3 sell. unfold maxRetries.
    rewrite placeSellWithRetry_step by exact Hcred. cbv zeta.
    destruct (limitSell exchange (log s) symbol qty price) as [resp|e1]; [reflexivity|].
    rewrite placeSellWithRetry_step by exact Hcred. cbv zeta. cbn [log bot].
    rewrite <- !app_assoc. cbn [app].
    destruct (limitSell exchange _ symbol qty price) as [resp|e2]; [reflexivity|].
    rewrite placeSellWithRetry_step by exact Hcred. cbv zeta. cbn [log bot].
    rewrite <- !app_assoc. cbn [app].
    destruct (limitSell exchange _ symbol qty price) as [resp|e3]; reflexivity. }
  split; [|split; [|split; [|split; [|split]]]].
  - apply (placeSellWithRetry_bot maxRetries symbol qty price s).
  - destruct (placeSellWithRetry_attempts maxRetries symbol qty price s) as [added [Hlog Hlen]].
    unfold exec in Hlog. fold run in Hlog. rewrite Hlog, filter_app, length_app.
    unfold maxRetries in Hlen. lia.
  - intros resp H1. rewrite Hrun, H1. reflexivity.
  - intros e1 resp H1 H2. rewrite Hrun, H1, H2. reflexivity.
  - intros e1 e2 resp H1 H2 H3. rewrite Hrun, H1, H2, H3. reflexivity.
  - intros e1 e2 e3 H1 H2 H3. rewrite Hrun, H1, H2, H3. reflexivity.
Qed.

(** ** The decision zones *)

Lemma signals_app (l1 l2 : list Event) : signals (l1 ++ l2) = signals l1 ++ signals l2.
Proof.
  induction l1 as [|e l1 IH]; [reflexivity|].
  destruct e; cbn [app signals]; rewrite IH; reflexivity.
Qed.

Lemma signals_snoc (l : list Event) (e : Event) :
  signals (l ++ [e]) = signals l ++ signals [e].
Proof. apply signals_app. Qed.

Lemma placeSellWithRetry_signals (n : nat) (symbol : string) (qty price : float) (s : State) :
  signals (log (exec (placeSellWithRetry exchange n symbol qty price) s)) = signals (log s).
Proof.
  revert s. induction n as [|n IH]; intros s; [reflexivity|].
  unfold exec in *. cbn [placeSellWithRetry]. unfold bind at 1.
  rewrite executeLimitSellOrder_run.
  destruct (credentialsConfigured (bot s)).
  - destruct (limitSell exchange (log s) symbol qty price) as [resp|e].
    + unfold ret. cbn [snd log]. rewrite signals_snoc. cbn [signals]. apply app_nil_r.
    + destruct n as [|n'].
      * unfold ret. cbn [snd log]. rewrite signals_snoc. cbn [signals]. apply app_nil_r.
      * unfold bind at 1, sleep, emit. cbn [fst snd bot log]. rewrite IH. cbn [log].
        rewrite !signals_snoc. cbn [signals]. now rewrite !app_nil_r.
  - destruct n as [|n']; [reflexivity|].
    unfold bind at 1, sleep, emit. cbn [fst snd bot log]. rewrite IH. cbn [log].
    rewrite !signals_snoc. cbn [signals]. now rewrite !app_nil_r.
Qed.

Lemma attachSellOrder_signals (coin : OptimizedTicker) (qty : float)
    (position : TradingPosition) (s : State) :
  signals (log (exec (attachSellOrder exchange coin qty position) s)) = signals (log s).
Proof.
  unfold exec, attachSellOrder. unfold bind at 1. rewrite getSymbolFilters_run.
  assert (Hs1 : signals (log s ++ [EvExchangeInfo (tickerSymbol coin)]) = signals (log s)).
  { rewrite signals_app. cbn. now rewrite app_nil_r. }
  destruct (exchangeInfo exchange (log s) (tickerSymbol coin)) as [filters|e];
    [|exact Hs1].
  unfold bind.
  match goal with |- context [placeSellWithRetry ?x ?n ?sy ?q ?p ?st] =>
    pose proof (placeSellWithRetry_signals n sy q p st) as Hb; unfold exec in Hb;
    destruct (placeSellWithRetry x n sy q p st) as [r s2] end.
  cbn [snd log] in Hb. rewrite Hs1 in Hb. destruct r; exact Hb.
Qed.

(** [executeBuy] reports no label of its own. *)
Lemma executeBuy_signals (coin : OptimizedTicker) (d : float) (s : State) :
  signals (log (exec (executeBuy exchange coin d) s)) = signals (log s).
Proof.
  unfold exec. rewrite executeBuy_run.
  destruct (AvailableBudget (bot s) <? InvestmentAmount (bot s)); [reflexivity|].
  rewrite executeBuyOrder_run.
  destruct (credentialsConfigured (bot s)); [|reflexivity].
  assert (Hs1 : forall ev, signals (log s ++ [EvMarketBuy (tickerSymbol coin) ev])
                           = signals (log s)).
  { intros ev. rewrite signals_app. cbn. now rewrite app_nil_r. }
  destruct (marketBuy exchange (log s) (tickerSymbol coin) (InvestmentAmount (bot s)))
    as [orderResp|e]; [|apply Hs1].
  cbv zeta. cbn [bot log].
  match goal with |- context [attachSellOrder ?x ?c ?q ?p0 ?st] =>
    pose proof (attachSellOrder_signals c q p0 st) as Ha; unfold exec in Ha;
    destruct (attachSellOrder x c q p0 st) as [p s3] end.
  cbn [snd log] in *. rewrite Ha, signals_app, Hs1. cbn. now rewrite app_nil_r.
Qed.

Lemma analyzeCoin_run (coin : OptimizedTicker) (s : State) :
  let x := PriceChangePercent coin in
  let name := tickerSymbol coin in
  let say z st := {| bot := bot st; log := log st ++ [EvSignal z name] |} in
  exec (analyzeCoin exchange coin) s =
  if x <=? -11.0 then say SKIP s
  else
    let s1 := if (x <=? -4.5) && (-5.0 <? x) then say WATCH s else s in
    if (x <=? -5.0) && (-10.0 <? x) then exec (executeBuy exchange coin x) (say BUY s1)
    else if -5.0 <? x then say HOLD s1
    else if (x <=? -10.0) && (-11.0 <? x) then say RISKY s1
    else s1.
Proof.
  cbv zeta. unfold exec, analyzeCoin.
  destruct (PriceChangePercent coin <=? -11.0); [reflexivity|].
  unfold bind at 1.
  destruct ((PriceChangePercent coin <=? -4.5) && (-5.0 <? PriceChangePercent coin));
    cbn [when emit ret fst snd];
    destruct ((PriceChangePercent coin <=? -5.0) && (-10.0 <? PriceChangePercent coin));
    try reflexivity;
    destruct (-5.0 <? PriceChangePercent coin); try reflexivity;
    destruct ((PriceChangePercent coin <=? -10.0) && (-11.0 <? PriceChangePercent coin));
    reflexivity.
Qed.

(** C1, as the code decides it.  For a coin whose 24h change is [x], the
    analysis reports: SKIP when [x <= -11]; RISKY when [-11 < x <= -10], the
    value -10 included; BUY, followed by [executeBuy], when [-10 < x <= -5],
    the value -5 included; WATCH and then HOLD when [-5 < x <= -4.5]; HOLD
    alone when [x > -4.5].  Outside the BUY zone the bot is left as it was
    and no request is sent. *)
Theorem analyzeCoin_zones (coin : OptimizedTicker) (s : State) :
  let x := PriceChangePercent coin in
  let name := tickerSymbol coin in
  let s' := exec (analyzeCoin exchange coin) s in
  let say z st := {| bot := bot st; log := log st ++ [EvSignal z name] |} in
  ((x <=? -11.0) = true -> s' = say SKIP s) /\
  ((-11.0 <? x) = true -> (x <=? -10.0) = true -> s' = say RISKY s) /\
  ((-10.0 <? x) = true -> (x <=? -5.0) = true ->
     s' = exec (executeBuy exchange coin x) (say BUY s) /\
     signals (log s') = signals (log s) ++ [BUY]) /\
  ((-5.0 <? x) = true -> (x <=? -4.5) = true -> s' = say HOLD (say WATCH s)) /\
  ((-4.5 <? x) = true -> s' = say HOLD s).
Proof.
  intros x name s' say. subst s'. rewrite analyzeCoin_run. cbv zeta. fold x. fold name.
  repeat apply conj.
  - intros H. now rewrite H.
  - intros H1 H2.
    rewrite (above_m11_not_skip x H1), (upto_m10_not_above_m5 x H2),
      (upto_m10_not_above_m10 x H2), H1, H2, !andb_false_r.
    reflexivity.
  - intros H1 H2.
    rewrite (above_m10_not_skip x H1), (upto_m5_not_above_m5 x H2), H1, H2, !andb_false_r.
    cbn [andb]. split; [reflexivity|].
    rewrite executeBuy_signals. cbn [log]. rewrite signals_app. reflexivity.
  - intros H1 H2.
    rewrite (above_m5_not_skip x H1), (above_m5_not_upto_m5 x H1), H1, H2.
    reflexivity.
  - intros H.
    rewrite (above_m4_5_not_skip x H), (above_m4_5_not_upto_m4_5 x H),
      (above_m4_5_not_upto_m5 x H), (above_m4_5_above_m5 x H).
    reflexivity.
Qed.

(** ** The budget over a sequence of buys *)

Lemma spend_shift (n : nat) (unit budget : float) :
  spend (S n) unit budget = spend n unit (budget - unit).
Proof.
  induction n as [|n IH]; [reflexivity|].
  cbn [spend] in *. now rewrite IH.
Qed.




(** ** The sell-price normalizer *)

Lemma eqb_zero_leb (t : float) : (t =? 0) = true -> (t <=? 0) = true.
Proof.
  rewrite eqb_spec, leb_spec. unfold SFeqb, SFleb.
  destruct (SFcompare (Prim2SF t) (Prim2SF 0)) as [[| |]|]; intros H;
    try discriminate H; reflexivity.
Qed.

Lemma roundToTickSize_error (price : float) (tickSize : string) :
  snd (ParseFloat tickSize) <> None -> roundToTickSize price tickSize = price.
Proof.
  unfold roundToTickSize. destruct (ParseFloat tickSize) as [tick [e|]]; cbn [snd];
    [reflexivity | congruence].
Qed.

Lemma roundToTickSize_nonpositive (price : float) (tickSize : string) :
  (fst (ParseFloat tickSize) <=? 0) = true -> roundToTickSize price tickSize = price.
Proof.
  unfold roundToTickSize. destruct (ParseFloat tickSize) as [tick [e|]]; cbn [fst];
    [reflexivity | intros ->; reflexivity].
Qed.

(** C9. The normalizer returns the price unchanged whenever the tick size
    does not parse or parses to zero.  [strconv.ParseFloat] rejects the empty
    string and reads "0" as zero, so a missing tick size and the tick size
    "0" are two such cases. *)
Theorem roundToTickSize_noop (price : float) :
  snd (ParseFloat "") <> None ->
  ParseFloat "0" = (0, None) ->
  (forall tickSize, snd (ParseFloat tickSize) <> None ->
     roundToTickSize price tickSize = price) /\
  (forall tickSize, (fst (ParseFloat tickSize) =? 0) = true ->
     roundToTickSize price tickSize = price) /\
  roundToTickSize price "" = price /\
  roundToTickSize price "0" = price.
Proof.
  intros Hempty Hzero. split; [|split; [|split]].
  - intros tickSize. apply roundToTickSize_error.
  - intros tickSize H. apply roundToTickSize_nonpositive, eqb_zero_leb, H.
  - apply roundToTickSize_error, Hempty.
  - apply roundToTickSize_nonpositive. rewrite Hzero. reflexivity.
Qed.

Lemma Prim2SF_half : Prim2SF 0.5 = S754_finite false 4503599627370496 (-53).
Proof. vm_compute. reflexivity. Qed.

(** A positive normal number: 53 significant bits, exponent in range. *)
Lemma classify_normal (t : float) :
  classify t = PNormal ->
  exists mt et,
    Prim2SF t = S754_finite false mt et /\
    (2 ^ 52 <= Zpos mt < 2 ^ 53)%Z /\ (-1074 <= et <= 971)%Z.
Proof.
  rewrite classify_spec. unfold SF64classify, SFclassify.
  pose proof (Prim2SF_valid t) as Hv.
  destruct (Prim2SF t) as [s|s| |s m e]; try (destruct s; discriminate); [discriminate|].
  destruct s; [destruct (Z.eqb _ prec); discriminate|].
  destruct (Z.eqb_spec (Zpos (digits2_pos m)) prec) as [Hd|Hd]; [|discriminate].
  intros _. exists m, e. split; [reflexivity|].
  pose proof (digits2_pos_bounds m) as Hb. rewrite Hd in Hb.
  cbn [valid_binary] in Hv. pose proof (bounded_canonical m e Hv) as Hc.
  unfold SpecFloat.bounded in Hv. apply andb_prop in Hv. destruct Hv as [_ He].
  apply Z.leb_le in He. change (emax - prec)%Z with 971%Z in He.
  change prec with 53%Z in Hd, Hb. rewrite Hd in Hc.
  change (53 - 1)%Z with 52%Z in Hb. split; [exact Hb | lia].
Qed.

Lemma float64_of_int_zero : Prim2SF (float64_of_int 0) = S754_zero false.
Proof. vm_compute. reflexivity. Qed.

(** [float64(n)] is the integer [n] itself below 2^53. *)
Lemma float64_of_int_exact (n : Z) :
  (1 <= n < 2 ^ 53)%Z ->
  Prim2SF (float64_of_int n) = binary_normalize prec emax n 0 false.
Proof.
  intros Hn. unfold float64_of_int. apply Prim2SF_SF2Prim.
  destruct (binary_normalize_int n Hn) as [mn [en [HN [Hmn [Hen _]]]]].
  rewrite HN. cbn [valid_binary]. unfold SpecFloat.bounded, canonical_mantissa.
  assert (Hd : Zpos (digits2_pos mn) = 53%Z) by (apply digits2_pos_unique; [exact Hmn | lia]).
  rewrite Hd, fexp_value.
  assert (Hlog : (0 <= Z.log2 n <= 52)%Z).
  { split; [apply Z.log2_nonneg|].
    assert (Z.log2 n < 53)%Z; [|lia]. apply Z.log2_lt_pow2; lia. }
  apply andb_true_intro. split; [apply Z.eqb_eq | apply Z.leb_le].
  - lia.
  - change (emax - prec)%Z with 971%Z. lia.
Qed.

Lemma in_int64_small (n : Z) : (0 <= n < 2 ^ 48)%Z -> in_int64 n = true.
Proof.
  intros Hn. unfold in_int64, int64_min, int64_max.
  change (2 ^ 48)%Z with 281474976710656%Z in Hn.
  change (2 ^ 63)%Z with 9223372036854775808%Z.
  apply andb_true_intro. split; apply Z.leb_le; lia.
Qed.

(** Dividing [float64(n) * t] by [t] again gives back the tick count [n]. *)
Lemma tick_count_recovered (n : Z) (t : float) :
  classify t = PNormal -> (0 <= n < 2 ^ 48)%Z ->
  is_finite (float64_of_int n * t) = true ->
  int64_of_float (float64_of_int n * t / t + 0.5) = n.
Proof.
  intros Ht Hn Hfin.
  destruct (classify_normal t Ht) as [mt [et [HT [Hmt Het]]]].
  unfold int64_of_float.
  rewrite add_spec, div_spec, mul_spec, Prim2SF_half, HT.
  apply Prim2SF_finite in Hfin. rewrite mul_spec, HT in Hfin.
  destruct (Z.eq_dec n 0) as [->|Hn0].
  - rewrite float64_of_int_zero. reflexivity.
  - assert (Hn1 : (1 <= n < 2 ^ 48)%Z) by lia.
    rewrite float64_of_int_exact in Hfin |- *
      by (change (2 ^ 48)%Z with 281474976710656%Z in Hn1;
          change (2 ^ 53)%Z with 9007199254740992%Z; lia).
    rewrite (renormalize_tick_count n mt et Hn1 Hmt Het).
    + now rewrite in_int64_small.
    + intros Hinf. rewrite Hinf in Hfin. exact Hfin.
Qed.

(** C8, as far as the code is idempotent.  For a tick size that parses to a
    positive normal number, a price whose tick count [int64(price/tick +
    0.5)] lies between 0 and 2^48 and whose normalized value is finite is
    normalized to a fixed point: normalizing again returns the same value. *)
Theorem roundToTickSize_idempotent (price : float) (tickSize : string) (t : float) :
  ParseFloat tickSize = (t, None) ->
  classify t = PNormal ->
  (0 <= int64_of_float (price / t + 0.5) < 2 ^ 48)%Z ->
  is_finite (roundToTickSize price tickSize) = true ->
  roundToTickSize (roundToTickSize price tickSize) tickSize
  = roundToTickSize price tickSize.
Proof.
  intros Hparse Ht Hn Hfin.
  assert (Hpos : (t <=? 0) = false).
  { destruct (classify_normal t Ht) as [mt [et [HT _]]].
    rewrite leb_spec, HT, Prim2SF_zero. reflexivity. }
  unfold roundToTickSize in *. rewrite Hparse in *. rewrite Hpos in *.
  now rewrite tick_count_recovered.
Qed.

(** ** The sell-order fields of a position *)




End BotFacts.

(** * The rest of the cycle *)

Section CycleFacts.

Context {RT : Runtime}.
Variable exchange : Exchange.

Local Open Scope float_scope.

(** ** Requests sent by one [executeBuy] *)

Lemma placeSellWithRetry_log (n : nat) (symbol : string) (qty price : float) (s : State) :
  exists added,
    log (exec (placeSellWithRetry exchange n symbol qty price) s) = log s ++ added /\
    forallb is_retry_event added = true /\
    (List.length (filter is_limit_sell added) <= n)%nat.
Proof.
  revert s. induction n as [|n IH]; intros s.
  - exists []. cbn. rewrite app_nil_r. repeat split; lia.
  - unfold exec. cbn [placeSellWithRetry]. unfold bind at 1.
    rewrite executeLimitSellOrder_run.
    destruct (credentialsConfigured (bot s)).
    + destruct (limitSell exchange (log s) symbol qty price) as [resp|e].
      * exists [EvLimitSell symbol qty price]. repeat split. cbn. lia.
      * destruct n as [|n'].
        -- exists [EvLimitSell symbol qty price]. repeat split. cbn. lia.
        -- unfold bind at 1, sleep, emit. cbn [fst snd bot log].
           destruct (IH {| bot := bot s;
                           log := (log s ++ [EvLimitSell symbol qty price]) ++ [EvSleep 2] |})
             as [added [Hlog [Hall Hlen]]].
           unfold exec in Hlog. cbn [log] in Hlog. rewrite Hlog.
           exists ([EvLimitSell symbol qty price; EvSleep 2] ++ added). split.
           ++ now rewrite <- !app_assoc.
           ++ cbn [app filter is_limit_sell List.length forallb is_retry_event andb].
              split; [exact Hall | lia].
    + destruct n as [|n'].
      * exists []. cbn. rewrite app_nil_r. repeat split; lia.
      * unfold bind at 1, sleep, emit. cbn [fst snd bot log].
        destruct (IH {| bot := bot s; log := log s ++ [EvSleep 2] |})
          as [added [Hlog [Hall Hlen]]].
        unfold exec in Hlog. cbn [log] in Hlog. rewrite Hlog.
        exists ([EvSleep 2] ++ added). split.
        ++ now rewrite <- !app_assoc.
        ++ cbn [app filter is_limit_sell List.length forallb is_retry_event andb].
           split; [exact Hall | lia].
Qed.

Lemma retry_events_gateway (events : list Event) :
  forallb is_retry_event events = true ->
  gateway_calls events = List.length (filter is_limit_sell events).
Proof.
  unfold gateway_calls. induction events as [|e events IH]; [reflexivity|].
  cbn [forallb]. intros H. apply andb_prop in H. destruct H as [He Hrest].
  destruct e as [ | | |n| ]; try discriminate He; cbn [filter is_gateway_call is_limit_sell];
    cbn [List.length]; rewrite IH by exact Hrest; reflexivity.
Qed.

(** X1. What one call of [executeBuy] sends, in order: nothing; or the
    market buy alone (when it fails); or the market buy, the three-second
    wait, one rules lookup and then only limit sells and two-second waits,
    with at most three limit sells.  So a call makes at most five requests. *)
Theorem executeBuy_requests (coin : OptimizedTicker) (d : float) (s : State) :
  let symbol := tickerSymbol coin in
  let buy := EvMarketBuy symbol (InvestmentAmount (bot s)) in
  exists added,
    log (exec (executeBuy exchange coin d) s) = log s ++ added /\
    (added = [] \/ added = [buy] \/
     exists sells,
       added = buy :: EvSleep 3 :: EvExchangeInfo symbol :: sells /\
       forallb is_retry_event sells = true /\
       (List.length (filter is_limit_sell sells) <= 3)%nat) /\
    (gateway_calls added <= 5)%nat.
Proof.
  cbv zeta. unfold exec. rewrite executeBuy_run.
  destruct (AvailableBudget (bot s) <? InvestmentAmount (bot s)).
  { exists []. cbn [snd]. rewrite app_nil_r. split; [reflexivity|]. split; [now left | cbn; lia]. }
  rewrite executeBuyOrder_run.
  destruct (credentialsConfigured (bot s)).
  2:{ exists []. cbn [snd]. rewrite app_nil_r. split; [reflexivity|].
      split; [now left | cbn; lia]. }
  destruct (marketBuy exchange (log s) (tickerSymbol coin) (InvestmentAmount (bot s)))
    as [orderResp|e].
  2:{ eexists. cbn [snd log]. split; [reflexivity|]. split; [right; now left | cbn; lia]. }
  cbv zeta. cbn [bot log].
  set (p0 := initialPosition _ _ _ _ _).
  unfold attachSellOrder. unfold bind at 1. rewrite getSymbolFilters_run. cbn [bot log].
  destruct (exchangeInfo exchange _ (tickerSymbol coin)) as [filters|e].
  - unfold bind at 1.
    match goal with |- context [placeSellWithRetry ?x ?n ?sy ?q ?p ?st] =>
      destruct (placeSellWithRetry_log n sy q p st) as [sells [Hlog [Hall Hlen]]];
      unfold exec in Hlog;
      destruct (placeSellWithRetry x n sy q p st) as [r s2] end.
    cbn [snd log] in Hlog.
    exists (EvMarketBuy (tickerSymbol coin) (InvestmentAmount (bot s)) :: EvSleep 3
            :: EvExchangeInfo (tickerSymbol coin) :: sells).
    split.
    { destruct r; cbn [snd log ret]; rewrite Hlog, <- !app_assoc; reflexivity. }
    split.
    { right. right. exists sells. split; [reflexivity|]. split; [exact Hall | exact Hlen]. }
    unfold gateway_calls in *. cbn [filter is_gateway_call List.length].
    pose proof (retry_events_gateway sells Hall) as Hg. unfold gateway_calls in Hg.
    unfold maxRetries in Hlen. lia.
  - exists [EvMarketBuy (tickerSymbol coin) (InvestmentAmount (bot s)); EvSleep 3;
            EvExchangeInfo (tickerSymbol coin)].
    split; [cbn [snd log ret]; rewrite <- !app_assoc; reflexivity|].
    split; [|cbn; lia].
    right. right. exists []. repeat split. cbn. lia.
Qed.

(** ** What a call of [executeBuy] leaves behind *)

Lemma attachSellOrder_keeps (coin : OptimizedTicker) (qty : float)
    (p0 : TradingPosition) (s : State) :
  let p := eval (attachSellOrder exchange coin qty p0) s in
  ID p = ID p0 /\ Symbol p = Symbol p0 /\ BuyPrice p = BuyPrice p0 /\
  Quantity p = Quantity p0 /\ InvestedAmount p = InvestedAmount p0 /\
  BuyTime p = BuyTime p0 /\ DropPercentage p = DropPercentage p0 /\
  CurrentValue p = CurrentValue p0.
Proof.
  cbv zeta. rewrite attachSellOrder_run.
  destruct (eval (getSymbolFilters exchange (tickerSymbol coin)) s); [|repeat split].
  cbv zeta. destruct (eval (placeSellWithRetry _ _ _ _ _) _); repeat split.
Qed.

Lemma attachSellOrder_grows (coin : OptimizedTicker) (qty : float)
    (p0 : TradingPosition) (s : State) :
  exists more, log (exec (attachSellOrder exchange coin qty p0) s) = log s ++ more.
Proof.
  unfold exec, attachSellOrder. unfold bind at 1. rewrite getSymbolFilters_run.
  destruct (exchangeInfo exchange _ (tickerSymbol coin)) as [filters|e].
  - unfold bind at 1.
    match goal with |- context [placeSellWithRetry ?x ?n ?sy ?q ?p ?st] =>
      destruct (placeSellWithRetry_log n sy q p st) as [sells [Hlog _]];
      unfold exec in Hlog;
      destruct (placeSellWithRetry x n sy q p st) as [r s2] end.
    cbn [snd log] in Hlog.
    exists (EvExchangeInfo (tickerSymbol coin) :: sells).
    destruct r; cbn [snd log ret]; rewrite Hlog, <- !app_assoc; reflexivity.
  - exists [EvExchangeInfo (tickerSymbol coin)]. reflexivity.
Qed.

Lemma executeBuy_outcome (coin : OptimizedTicker) (d : float) (s : State) :
  bot (exec (executeBuy exchange coin d) s) = bot s \/
  (AvailableBudget (bot s) <? InvestmentAmount (bot s)) = false /\
  credentialsConfigured (bot s) = true /\
  exists p,
    bot (exec (executeBuy exchange coin d) s) = recordedBot (bot s) p /\
    ID p = NextPositionID (bot s) /\
    Symbol p = tickerSymbol coin /\
    DropPercentage p = d /\
    InvestedAmount p = InvestmentAmount (bot s) /\
    CurrentValue p = BuyPrice p * Quantity p.
Proof.
  destruct (AvailableBudget (bot s) <? InvestmentAmount (bot s)) eqn:Hguard.
  { left. unfold exec. rewrite executeBuy_run, Hguard. reflexivity. }
  destruct (eval (executeBuyOrder exchange (tickerSymbol coin) (InvestmentAmount (bot s))) s)
    as [orderResp|e] eqn:Hbuy.
  - right. split; [reflexivity|]. split.
    { unfold eval in Hbuy. rewrite executeBuyOrder_run in Hbuy.
      destruct (credentialsConfigured (bot s)); [reflexivity | discriminate Hbuy]. }
    rewrite (executeBuy_accepted_run exchange coin d s orderResp Hguard Hbuy). cbv zeta.
    match goal with |- context [attachSellOrder ?x ?c ?q ?p0 ] =>
      pose proof (attachSellOrder_keeps c q p0) as Hk end.
    match goal with |- context [eval ?m ?st] => specialize (Hk st); cbv zeta in Hk;
      set (p := eval m st) in * end.
    destruct Hk as [H1 [H2 [H3 [H4 [H5 [_ [H7 H8]]]]]]].
    exists p. split; [reflexivity|].
    rewrite H1, H2, H7, H5, H8, H3, H4. repeat split.
  - left. exact (proj1 (executeBuy_buy_error_frame exchange coin d s e Hguard Hbuy)).
Qed.

(** ** The analysis loop *)

Lemma gateway_calls_snoc (l : list Event) (e : Event) :
  gateway_calls (l ++ [e]) = (gateway_calls l + (if is_gateway_call e then 1 else 0))%nat.
Proof.
  unfold gateway_calls. rewrite filter_app, length_app. cbn [filter].
  destruct (is_gateway_call e); reflexivity.
Qed.

Lemma analyzeTradingOpportunities_run (s : State) :
  exec (analyzeTradingOpportunities exchange) s
  = exec (analyzeCoins exchange (WatchList (bot s))) s.
Proof. reflexivity. Qed.

Lemma analyzeCoins_cons (coin : OptimizedTicker) (coins : list OptimizedTicker) (s : State) :
  exec (analyzeCoins exchange (coin :: coins)) s
  = exec (analyzeCoins exchange coins) (exec (analyzeCoin exchange coin) s).
Proof.
  unfold analyzeCoins, exec. cbn [forEach]. unfold bind at 1.
  destruct (analyzeCoin exchange coin s) as [u s1]. reflexivity.
Qed.

(** One step of the loop only reports, or reports and calls [executeBuy]
    for a coin of the BUY zone. *)
Lemma analyzeCoin_outcome (coin : OptimizedTicker) (s : State) :
  exists s0,
    bot s0 = bot s /\ gateway_calls (log s0) = gateway_calls (log s) /\
    (exec (analyzeCoin exchange coin) s = s0 \/
     inBuyZone (PriceChangePercent coin) = true /\
     exec (analyzeCoin exchange coin) s
     = exec (executeBuy exchange coin (PriceChangePercent coin)) s0).
Proof.
  rewrite analyzeCoin_run. cbv zeta. unfold inBuyZone.
  set (x := PriceChangePercent coin). set (name := tickerSymbol coin).
  assert (Hsay : forall z st,
            bot st = bot s -> gateway_calls (log st) = gateway_calls (log s) ->
            bot {| bot := bot st; log := log st ++ [EvSignal z name] |} = bot s /\
            gateway_calls (log {| bot := bot st; log := log st ++ [EvSignal z name] |})
            = gateway_calls (log s)).
  { intros z st Hb Hg. cbn [bot log]. rewrite gateway_calls_snoc. cbn. split; [exact Hb | lia]. }
  destruct (x <=? -11.0).
  { eexists. split; [|split; [|left; reflexivity]]; apply Hsay; reflexivity. }
  set (s1 := if (x <=? -4.5) && (-5.0 <? x)
             then {| bot := bot s; log := log s ++ [EvSignal WATCH name] |} else s).
  assert (H1 : bot s1 = bot s /\ gateway_calls (log s1) = gateway_calls (log s)).
  { subst s1. destruct ((x <=? -4.5) && (-5.0 <? x)); [apply Hsay; reflexivity | now split]. }
  destruct H1 as [Hb1 Hg1].
  destruct ((x <=? -5.0) && (-10.0 <? x)).
  { exists {| bot := bot s1; log := log s1 ++ [EvSignal BUY name] |}.
    split; [apply Hsay; assumption|]. split; [apply Hsay; assumption|].
    right. split; reflexivity. }
  destruct (-5.0 <? x).
  { eexists. split; [|split; [|left; reflexivity]]; apply Hsay; assumption. }
  destruct ((x <=? -10.0) && (-11.0 <? x)).
  { eexists. split; [|split; [|left; reflexivity]]; apply Hsay; assumption. }
  exists s1. split; [exact Hb1|]. split; [exact Hg1 | now left].
Qed.

Lemma analyzeCoins_nothing_to_buy (coins : list OptimizedTicker) (s : State) :
  forallb (fun coin => negb (inBuyZone (PriceChangePercent coin))) coins = true ->
  bot (exec (analyzeCoins exchange coins) s) = bot s /\
  gateway_calls (log (exec (analyzeCoins exchange coins) s)) = gateway_calls (log s).
Proof.
  revert s. induction coins as [|coin coins IH]; intros s Hall; [now split|].
  cbn [forallb] in Hall. apply andb_prop in Hall. destruct Hall as [Hcoin Hrest].
  rewrite analyzeCoins_cons.
  destruct (analyzeCoin_outcome coin s) as [s0 [Hb [Hg [Hs | [Hzone _]]]]].
  - rewrite Hs. destruct (IH s0 Hrest) as [IHb IHg]. rewrite IHb, IHg. now split.
  - rewrite Hzone in Hcoin. discriminate Hcoin.
Qed.

(** A bot that cannot buy: too little budget, or no credentials. *)
Lemma executeBuy_cannot_buy (coin : OptimizedTicker) (d : float) (s : State) :
  (AvailableBudget (bot s) <? InvestmentAmount (bot s)) = true \/
  credentialsConfigured (bot s) = false ->
  executeBuy exchange coin d s = (tt, s).
Proof.
  intros H. rewrite executeBuy_run.
  destruct (AvailableBudget (bot s) <? InvestmentAmount (bot s)); [reflexivity|].
  destruct H as [H|H]; [discriminate H|].
  rewrite executeBuyOrder_run, H. reflexivity.
Qed.

Lemma analyzeCoins_cannot_buy (coins : list OptimizedTicker) (s : State) :
  (AvailableBudget (bot s) <? InvestmentAmount (bot s)) = true \/
  credentialsConfigured (bot s) = false ->
  bot (exec (analyzeCoins exchange coins) s) = bot s /\
  gateway_calls (log (exec (analyzeCoins exchange coins) s)) = gateway_calls (log s).
Proof.
  revert s. induction coins as [|coin coins IH]; intros s Hcannot; [now split|].
  rewrite analyzeCoins_cons.
  destruct (analyzeCoin_outcome coin s) as [s0 [Hb [Hg Hs]]].
  assert (Hs0 : exec (analyzeCoin exchange coin) s = s0).
  { destruct Hs as [Hs | [_ Hs]]; [exact Hs|].
    rewrite Hs. unfold exec. rewrite executeBuy_cannot_buy; [reflexivity|].
    now rewrite Hb. }
  rewrite Hs0. destruct (IH s0) as [IHb IHg]; [now rewrite Hb|].
  rewrite IHb, IHg. now split.
Qed.

(** The frame and the budget, the ids and the recorded positions, over the
    whole loop. *)
Lemma ids_weaken (l : list TradingPosition) (k k' : Z) :
  (k <= k')%Z -> idsIncreasingBelow l k -> idsIncreasingBelow l k'.
Proof.
  intros Hk. induction l as [|p l IH]; [trivial|].
  cbn [idsIncreasingBelow]. intros [H1 [H2 H3]]. split; [lia|]. split; [exact H2 | auto].
Qed.

Lemma ids_snoc (l : list TradingPosition) (k : Z) (p : TradingPosition) :
  idsIncreasingBelow l k -> ID p = k -> idsIncreasingBelow (l ++ [p]) (k + 1).
Proof.
  intros Hl Hp. induction l as [|q l IH].
  - cbn. repeat split; [lia | constructor].
  - cbn [app idsIncreasingBelow] in *. destruct Hl as [H1 [H2 H3]].
    split; [lia|]. split; [|auto].
    apply Forall_app. split; [exact H2|]. constructor; [lia | constructor].
Qed.

Lemma boughtFrom_more (coin : OptimizedTicker) (coins : list OptimizedTicker)
    (unit : float) (p : TradingPosition) :
  boughtFrom coins unit p -> boughtFrom (coin :: coins) unit p.
Proof.
  intros [H1 [[c [Hin Hc]] H3]]. split; [exact H1|]. split; [|exact H3].
  exists c. split; [now right | exact Hc].
Qed.

Lemma analyzeCoins_summary (coins : list OptimizedTicker) (s : State) :
  let b := bot s in
  let b' := bot (exec (analyzeCoins exchange coins) s) in
  exists added,
    Positions b' = Positions b ++ added /\
    Forall (boughtFrom coins (InvestmentAmount b)) added /\
    (List.length added
     <= List.length (filter (fun coin => inBuyZone (PriceChangePercent coin)) coins))%nat /\
    TotalBudget b' = TotalBudget b /\ InvestmentAmount b' = InvestmentAmount b /\
    WatchList b' = WatchList b /\ Config b' = Config b /\
    AvailableBudget b' = spend (List.length added) (InvestmentAmount b) (AvailableBudget b) /\
    ((int64_min <= NextPositionID b)%Z ->
     (NextPositionID b + Z.of_nat (List.length coins) <= int64_max)%Z ->
     NextPositionID b' = (NextPositionID b + Z.of_nat (List.length added))%Z /\
     (idsIncreasingBelow (Positions b) (NextPositionID b) ->
      idsIncreasingBelow (Positions b') (NextPositionID b'))).
Proof.
  cbv zeta. revert s. induction coins as [|coin coins IH]; intros s.
  - exists []. cbn. rewrite app_nil_r, Z.add_0_r. repeat split; auto.
  - rewrite analyzeCoins_cons.
    destruct (analyzeCoin_outcome coin s) as [s0 [Hb [_ Hs]]].
    set (s1 := exec (analyzeCoin exchange coin) s) in *.
    specialize (IH s1).
    destruct IH as [acc [Hp [Hall [Hlen [Ht [Hi [Hw [Hc [Ha Hid]]]]]]]]].
    assert (Hstep : bot s1 = bot s \/
              inBuyZone (PriceChangePercent coin) = true /\
              exists p, bot s1 = recordedBot (bot s) p /\
                ID p = NextPositionID (bot s) /\
                boughtFrom (coin :: coins) (InvestmentAmount (bot s)) p /\
                (AvailableBudget (bot s) <? InvestmentAmount (bot s)) = false).
    { destruct Hs as [Hs | [Hzone Hs]]; [left; now rewrite Hs|].
      rewrite Hs.
      destruct (executeBuy_outcome coin (PriceChangePercent coin) s0)
        as [Hsame | [Hguard [_ [p [Hrec [H1 [H2 [H3 [H4 H5]]]]]]]]].
      - left. now rewrite Hsame.
      - right. split; [exact Hzone|]. rewrite Hb in *. exists p.
        split; [exact Hrec|]. split; [exact H1|]. split; [|exact Hguard].
        split; [now rewrite H3|]. split; [|split; [exact H4 | exact H5]].
        exists coin. split; [now left | split; [exact H2 | exact H3]]. }
    clearbody s1. cbn [List.length filter].
    destruct Hstep as [Hsame | [Hzone [p [Hrec [Hidp [Hbought Hguard]]]]]].
    + rewrite Hsame in *. exists acc.
      split; [exact Hp|].
      split; [eapply Forall_impl; [|exact Hall]; intros q; apply boughtFrom_more|].
      split; [destruct (inBuyZone (PriceChangePercent coin)); cbn [List.length]; lia|].
      repeat (split; [assumption|]).
      intros Hmin Hmax. apply Hid; [exact Hmin|].
      rewrite Nat2Z.inj_succ in Hmax. lia.
    + rewrite Hrec in Hp, Ht, Hi, Hw, Hc, Ha, Hid, Hall.
      cbn [recordedBot Positions TotalBudget InvestmentAmount AvailableBudget WatchList
           Config NextPositionID] in *.
      exists (p :: acc). rewrite <- app_assoc in Hp. cbn [app] in Hp.
      split; [exact Hp|].
      split.
      { constructor; [exact Hbought|].
        eapply Forall_impl; [|exact Hall]. intros q; apply boughtFrom_more. }
      split; [rewrite Hzone; cbn [List.length]; lia|].
      repeat (split; [assumption|]).
      split; [cbn [List.length]; rewrite spend_shift; exact Ha|].
      intros Hmin Hmax. rewrite Nat2Z.inj_succ in Hmax.
      rewrite wrap64_succ in Hid by lia.
      destruct Hid as [Hnext Hids]; [lia | lia |].
      split; [cbn [List.length]; rewrite Nat2Z.inj_succ; lia|].
      intros Hinc. apply Hids. now apply ids_snoc.
Qed.

(** X2. A watch list without a coin in the BUY zone (a 24h change in
    (-10, -5]) makes [analyzeTradingOpportunities] report only: the bot is
    left as it was and no request reaches the exchange. *)
Theorem analyzeTradingOpportunities_idle (s : State) :
  forallb (fun coin => negb (inBuyZone (PriceChangePercent coin))) (WatchList (bot s)) = true ->
  bot (exec (analyzeTradingOpportunities exchange) s) = bot s /\
  gateway_calls (log (exec (analyzeTradingOpportunities exchange) s)) = gateway_calls (log s).
Proof. rewrite analyzeTradingOpportunities_run. apply analyzeCoins_nothing_to_buy. Qed.

(** X3. With an available budget below the investment unit, or without API
    credentials, [analyzeTradingOpportunities] changes nothing in the bot
    and sends no request, whatever the changes of the watched coins. *)
Theorem analyzeTradingOpportunities_cannot_buy (s : State) :
  (AvailableBudget (bot s) <? InvestmentAmount (bot s)) = true \/
  credentialsConfigured (bot s) = false ->
  bot (exec (analyzeTradingOpportunities exchange) s) = bot s /\
  gateway_calls (log (exec (analyzeTradingOpportunities exchange) s)) = gateway_calls (log s).
Proof. rewrite analyzeTradingOpportunities_run. apply analyzeCoins_cannot_buy. Qed.

(** X4. [analyzeTradingOpportunities] only appends positions, at most one
    for each watched coin of the BUY zone; each new position carries the symbol and the 24h change of
    a watched coin, that change lies in the BUY zone, the amount invested
    is the investment unit and the current value is buy price times
    quantity. *)
Theorem analyzeTradingOpportunities_positions (s : State) :
  let b := bot s in
  let b' := bot (exec (analyzeTradingOpportunities exchange) s) in
  exists added,
    Positions b' = Positions b ++ added /\
    Forall (boughtFrom (WatchList b) (InvestmentAmount b)) added /\
    (List.length added
     <= List.length (filter (fun coin => inBuyZone (PriceChangePercent coin))
                            (WatchList b)))%nat.
Proof.
  cbv zeta. rewrite analyzeTradingOpportunities_run.
  destruct (analyzeCoins_summary (WatchList (bot s)) s) as [added [Hp [Hall [Hlen _]]]].
  exists added. auto.
Qed.

(** X5. The accounting of one analysis: the total budget, the investment
    unit, the watch list and the configuration are left as they were, and
    the available budget is lowered by one (rounded) subtraction of the
    investment unit for each position the analysis recorded. *)
Theorem analyzeTradingOpportunities_accounting (s : State) :
  let b := bot s in
  let b' := bot (exec (analyzeTradingOpportunities exchange) s) in
  TotalBudget b' = TotalBudget b /\ InvestmentAmount b' = InvestmentAmount b /\
  WatchList b' = WatchList b /\ Config b' = Config b /\
  exists n,
    List.length (Positions b') = (List.length (Positions b) + n)%nat /\
    AvailableBudget b' = spend n (InvestmentAmount b) (AvailableBudget b).
Proof.
  cbv zeta. rewrite analyzeTradingOpportunities_run.
  destruct (analyzeCoins_summary (WatchList (bot s)) s)
    as [added [Hp [_ [_ [Ht [Hi [Hw [Hc [Ha _]]]]]]]]].
  repeat (split; [assumption|]).
  exists (List.length added). split; [|exact Ha].
  rewrite Hp. apply length_app.
Qed.

Lemma ids_NoDup (l : list TradingPosition) (k : Z) :
  idsIncreasingBelow l k -> NoDup (map ID l).
Proof.
  induction l as [|p l IH]; [constructor|].
  cbn [idsIncreasingBelow map]. intros [_ [Hlt Hrest]].
  constructor; [|auto].
  intros Hin. apply in_map_iff in Hin. destruct Hin as [q [Hq Hin]].
  rewrite Forall_forall in Hlt. specialize (Hlt q Hin). lia.
Qed.

(** X6. Position ids: when the ids of the recorded positions increase along
    the list and lie below [NextPositionID], and the counter has room for
    one id per watched coin below the largest int64, the same holds after
    [analyzeTradingOpportunities]; the counter has advanced by the number
    of new positions, and no two positions share an id. *)
Theorem analyzeTradingOpportunities_ids (s : State) :
  let b := bot s in
  let b' := bot (exec (analyzeTradingOpportunities exchange) s) in
  (int64_min <= NextPositionID b)%Z ->
  (NextPositionID b + Z.of_nat (List.length (WatchList b)) <= int64_max)%Z ->
  idsIncreasingBelow (Positions b) (NextPositionID b) ->
  idsIncreasingBelow (Positions b') (NextPositionID b') /\
  NoDup (map ID (Positions b')) /\
  NextPositionID b'
  = (NextPositionID b
     + Z.of_nat (List.length (Positions b') - List.length (Positions b)))%Z.
Proof.
  cbv zeta. rewrite analyzeTradingOpportunities_run. intros Hmin Hmax Hinc.
  destruct (analyzeCoins_summary (WatchList (bot s)) s)
    as [added [Hp [_ [_ [_ [_ [_ [_ [_ Hid]]]]]]]]].
  destruct (Hid Hmin Hmax) as [Hnext Hids].
  split; [auto|]. split; [eapply ids_NoDup; eauto|].
  rewrite Hnext, Hp, length_app. f_equal. f_equal. lia.
Qed.

(** ** One trading cycle *)


(** ** Reports and the summary of the fetch *)

Lemma analyzeCoin_signals (coin : OptimizedTicker) (s : State) :
  let x := PriceChangePercent coin in
  exists new,
    signals (log (exec (analyzeCoin exchange coin) s)) = signals (log s) ++ new /\
    List.length (filter is_buy_signal new) = (if inBuyZone x then 1 else 0)%nat /\
    List.length (filter is_watch_signal new) = (if inWatchZone x then 1 else 0)%nat /\
    (inBuyZone x = true -> inWatchZone x = false).
Proof.
  cbv zeta. rewrite analyzeCoin_run. cbv zeta. unfold inBuyZone, inWatchZone.
  set (x := PriceChangePercent coin). set (name := tickerSymbol coin).
  destruct (x <=? -11.0) eqn:Hskip.
  { exists [SKIP]. cbn [log]. rewrite signals_snoc.
    assert (H10 : (-10.0 <? x) = false).
    { destruct (-10.0 <? x) eqn:H; [|reflexivity].
      rewrite (above_m10_not_skip x H) in Hskip. discriminate Hskip. }
    assert (H5 : (-5.0 <? x) = false).
    { destruct (-5.0 <? x) eqn:H; [|reflexivity].
      rewrite (above_m5_not_skip x H) in Hskip. discriminate Hskip. }
    rewrite H10, H5, !andb_false_r. repeat split. }
  destruct (x <=? -5.0) eqn:Hle5.
  - rewrite (upto_m5_not_above_m5 x Hle5), !andb_false_r. cbn [andb].
    destruct (-10.0 <? x) eqn:H10.
    + exists [BUY]. rewrite executeBuy_signals. cbn [log]. rewrite signals_snoc.
      repeat split.
    + destruct ((x <=? -10.0) && (-11.0 <? x)).
      * exists [RISKY]. cbn [log]. rewrite signals_snoc. repeat split.
      * exists []. rewrite app_nil_r. repeat split.
  - cbn [andb]. destruct (-5.0 <? x) eqn:H5.
    + destruct (x <=? -4.5); cbn [andb].
      * exists [WATCH; HOLD]. cbn [log]. rewrite !signals_snoc, <- app_assoc.
        repeat split; discriminate.
      * exists [HOLD]. cbn [log]. rewrite signals_snoc. repeat split; discriminate.
    + rewrite !andb_false_r.
      destruct ((x <=? -10.0) && (-11.0 <? x)).
      * exists [RISKY]. cbn [log]. rewrite signals_snoc. repeat split; discriminate.
      * exists []. rewrite app_nil_r. repeat split; discriminate.
Qed.

Lemma analyzeCoins_signals (coins : list OptimizedTicker) (s : State) (buys watches : Z) :
  exists new,
    signals (log (exec (analyzeCoins exchange coins) s)) = signals (log s) ++ new /\
    countOpportunities coins buys watches
    = ((buys + Z.of_nat (List.length (filter is_buy_signal new)))%Z,
       (watches + Z.of_nat (List.length (filter is_watch_signal new)))%Z).
Proof.
  revert s buys watches. induction coins as [|coin coins IH]; intros s buys watches.
  - exists []. cbn. now rewrite app_nil_r, !Z.add_0_r.
  - rewrite analyzeCoins_cons.
    destruct (analyzeCoin_signals coin s) as [new1 [Hs1 [Hb1 [Hw1 Hdisj]]]].
    cbv zeta in Hb1, Hw1, Hdisj. cbn [countOpportunities]. cbv zeta.
    fold (inBuyZone (PriceChangePercent coin)).
    fold (inWatchZone (PriceChangePercent coin)).
    destruct (inBuyZone (PriceChangePercent coin)).
    + rewrite (Hdisj eq_refl) in Hw1.
      destruct (IH (exec (analyzeCoin exchange coin) s) (buys + 1)%Z watches)
        as [new [Hs Hc]].
      exists (new1 ++ new). rewrite Hs, Hs1, app_assoc. split; [reflexivity|].
      rewrite Hc, !filter_app, !length_app, Hb1, Hw1. f_equal; lia.
    + destruct (inWatchZone (PriceChangePercent coin)).
      * destruct (IH (exec (analyzeCoin exchange coin) s) buys (watches + 1)%Z)
          as [new [Hs Hc]].
        exists (new1 ++ new). rewrite Hs, Hs1, app_assoc. split; [reflexivity|].
        rewrite Hc, !filter_app, !length_app, Hb1, Hw1. f_equal; lia.
      * destruct (IH (exec (analyzeCoin exchange coin) s) buys watches)
          as [new [Hs Hc]].
        exists (new1 ++ new). rewrite Hs, Hs1, app_assoc. split; [reflexivity|].
        rewrite Hc, !filter_app, !length_app, Hb1, Hw1. f_equal; lia.
Qed.

(** X8. The summary printed after the fetch and the analysis agree: the
    numbers of BUY and of WATCH reports that [analyzeTradingOpportunities]
    emits for the watch list are the two counters [buyOpportunities] and
    [watchList] that [fetchTop20CoinsFromCMC] computes for the same list,
    whatever the exchange answers and whatever the budget is. *)
Theorem analysis_reports_match_summary (s : State) :
  exists new,
    signals (log (exec (analyzeTradingOpportunities exchange) s)) = signals (log s) ++ new /\
    countOpportunities (WatchList (bot s)) 0 0
    = (Z.of_nat (List.length (filter is_buy_signal new)),
       Z.of_nat (List.length (filter is_watch_signal new))).
Proof.
  rewrite analyzeTradingOpportunities_run.
  destruct (analyzeCoins_signals (WatchList (bot s)) s 0 0) as [new [Hs Hc]].
  exists new. split; [exact Hs|]. rewrite Hc. reflexivity.
Qed.

(** ** The portfolio value *)

Lemma getCurrentPortfolioValue_recorded (b : TradingBot) (p : TradingPosition) :
  getCurrentPortfolioValue (recordedBot b p) = getCurrentPortfolioValue b + CurrentValue p.
Proof.
  unfold getCurrentPortfolioValue. cbn [recordedBot Positions].
  rewrite fold_left_app. reflexivity.
Qed.

(** X9. One [executeBuy] either leaves the bot, and so the portfolio value,
    as it was, or records one position and raises
    [getCurrentPortfolioValue] by that position's buy price times its
    quantity (one rounded product added by one rounded sum). *)
Theorem executeBuy_portfolio_value (coin : OptimizedTicker) (d : float) (s : State) :
  let b' := bot (exec (executeBuy exchange coin d) s) in
  b' = bot s \/
  exists p,
    Positions b' = Positions (bot s) ++ [p] /\
    getCurrentPortfolioValue b'
    = getCurrentPortfolioValue (bot s) + BuyPrice p * Quantity p.
Proof.
  cbv zeta.
  destruct (executeBuy_outcome coin d s) as [Hsame | [_ [_ [p [Hrec [_ [_ [_ [_ Hv]]]]]]]]].
  - now left.
  - right. exists p. rewrite Hrec, getCurrentPortfolioValue_recorded, Hv.
    split; reflexivity.
Qed.

End CycleFacts.

(** * Fetching, filters and start-up *)

Section FetchAndStart.

Context {RT : Runtime}.
Variable exchange : Exchange.

Local Open Scope float_scope.

(** ** The coins taken from the CoinMarketCap response *)

Lemma collectTop20_firstn (data : list CMCCoin) (top20Coins : list OptimizedTicker)
    (addedCount : Z) :
  (0 <= addedCount <= 20)%Z ->
  collectTop20 data top20Coins addedCount
  = top20Coins ++ map tickerOfCoin (firstn (Z.to_nat (20 - addedCount)) data).
Proof.
  revert top20Coins addedCount.
  induction data as [|coin rest IH]; intros top20Coins addedCount Hk.
  - cbn [collectTop20]. rewrite firstn_nil. cbn. now rewrite app_nil_r.
  - cbn [collectTop20]. destruct (20 <=? addedCount)%Z eqn:Hfull.
    + apply Z.leb_le in Hfull. replace (20 - addedCount)%Z with 0%Z by lia.
      cbn. now rewrite app_nil_r.
    + apply Z.leb_gt in Hfull. rewrite IH by lia.
      replace (Z.to_nat (20 - addedCount)) with (S (Z.to_nat (20 - (addedCount + 1)))) by lia.
      cbn [firstn map]. now rewrite <- app_assoc.
Qed.

Lemma tickersOfResponse_firstn (cmcResponse : CoinMarketCapResponse) :
  StatusErrorCode cmcResponse = 0%Z ->
  tickersOfResponse cmcResponse = Ok (map tickerOfCoin (firstn 20 (Data cmcResponse))).
Proof.
  intros Hcode. unfold tickersOfResponse. rewrite Hcode. cbn [Z.eqb negb].
  rewrite collectTop20_firstn by lia. reflexivity.
Qed.

(** X10. From a decoded CoinMarketCap response, [fetchTop20CoinsFromCMC]
    fails exactly when the response carries a nonzero error code;
    otherwise it returns one ticker for each of the first 20 coins of the
    response, in the response's order: symbol with USDT appended, price and
    24h change from the USD quote.  No coin is left out, so a stablecoin
    among the first 20 is returned like any other coin. *)
Theorem tickersOfResponse_spec (cmcResponse : CoinMarketCapResponse) :
  tickersOfResponse cmcResponse =
  if (StatusErrorCode cmcResponse =? 0)%Z
  then Ok (map tickerOfCoin (firstn 20 (Data cmcResponse)))
  else Err (String.append "CMC API error: " (StatusErrorMessage cmcResponse)).
Proof.
  unfold tickersOfResponse.
  destruct (StatusErrorCode cmcResponse =? 0)%Z; cbn [negb]; [|reflexivity].
  rewrite collectTop20_firstn by lia. reflexivity.
Qed.

(** X11. One cycle on a CoinMarketCap response without error code: every
    position the cycle records is for one of the first 20 coins of the
    response, carries that coin's symbol with USDT appended and its 24h
    change, and that change lies in the BUY zone. *)
Theorem runTradingCycle_buys_from_top20 (cmcResponse : CoinMarketCapResponse) (s : State) :
  StatusErrorCode cmcResponse = 0%Z ->
  let s' := exec (runTradingCycle exchange (tickersOfResponse cmcResponse)) s in
  exists added,
    Positions (bot s') = Positions (bot s) ++ added /\
    Forall (fun p =>
              exists coin, In coin (firstn 20 (Data cmcResponse)) /\
                Symbol p = String.append (cmcSymbol coin) "USDT" /\
                DropPercentage p = QuotePercentChange24h (QuoteUSDOf coin) /\
                inBuyZone (QuotePercentChange24h (QuoteUSDOf coin)) = true) added.
Proof.
  intros Hcode. cbv zeta. rewrite tickersOfResponse_firstn by exact Hcode.
  unfold exec, runTradingCycle.
  set (watchList := map tickerOfCoin (firstn 20 (Data cmcResponse))).
  set (s1 := {| bot := {| TotalBudget := TotalBudget (bot s);
                          AvailableBudget := AvailableBudget (bot s);
                          InvestmentAmount := InvestmentAmount (bot s);
                          Positions := Positions (bot s);
                          WatchList := watchList;
                          NextPositionID := NextPositionID (bot s);
                          Config := Config (bot s) |};
                log := log s |}).
  assert (Hrun : snd ((b <- getBot ;; setBot
                    {| TotalBudget := TotalBudget b;
                       AvailableBudget := AvailableBudget b;
                       InvestmentAmount := InvestmentAmount b;
                       Positions := Positions b;
                       WatchList := watchList;
                       NextPositionID := NextPositionID b;
                       Config := Config b |} ;;
                  analyzeTradingOpportunities exchange ;; ret (Ok tt)) s)
                 = exec (analyzeCoins exchange watchList) s1).
  { unfold bind, getBot, setBot, ret, exec. cbn [fst snd]. fold s1.
    change (analyzeTradingOpportunities exchange s1)
      with (analyzeCoins exchange watchList s1).
    destruct (analyzeCoins exchange watchList s1) as [u s2]. reflexivity. }
  rewrite Hrun.
  destruct (analyzeCoins_summary exchange watchList s1) as [added [Hp [Hall _]]].
  exists added. split; [exact Hp|].
  eapply Forall_impl; [|exact Hall].
  intros p [Hzone [[ticker [Hin [Hsym Hdrop]]] _]].
  apply in_map_iff in Hin. destruct Hin as [coin [Hticker Hcoin]]. subst ticker.
  exists coin. split; [exact Hcoin|]. split; [exact Hsym|]. split; [exact Hdrop|].
  rewrite Hdrop in Hzone. exact Hzone.
Qed.

(** ** The filters of a symbol *)

Lemma find_snoc {A} (f : A -> bool) (l : list A) (x : A) :
  find f (l ++ [x]) = match find f l with Some y => Some y | None => if f x then Some x else None end.
Proof.
  induction l as [|y l IH]; [reflexivity|].
  cbn [app find]. destruct (f y); [reflexivity | exact IH].
Qed.

Lemma fold_applyFilter (filters : list ExchangeFilter) (init : SymbolFilters) :
  StepSize (fold_left applyFilter filters init)
  = match find (fun f => String.eqb (FilterType f) "LOT_SIZE") (rev filters) with
    | Some f => filterStepSize f
    | None => StepSize init
    end /\
  TickSize (fold_left applyFilter filters init)
  = match find (fun f => String.eqb (FilterType f) "PRICE_FILTER") (rev filters) with
    | Some f => filterTickSize f
    | None => TickSize init
    end.
Proof.
  revert init. induction filters as [|f filters IH]; intros init; [now split|].
  cbn [fold_left rev]. rewrite !find_snoc.
  destruct (IH (applyFilter init f)) as [Hstep Htick]. rewrite Hstep, Htick.
  unfold applyFilter.
  destruct (find _ (rev filters)); destruct (find _ (rev filters));
    destruct (String.eqb (FilterType f) "LOT_SIZE") eqn:Hlot;
    destruct (String.eqb (FilterType f) "PRICE_FILTER") eqn:Hprice;
    try (split; reflexivity).
  all: apply String.eqb_eq in Hlot; apply String.eqb_eq in Hprice; congruence.
Qed.

(** X12. From a decoded exchange info, [getSymbolFilters] fails exactly
    when the list of symbols is empty; otherwise it reads the first entry
    only, whatever symbol that entry names, and returns as step size the
    value of its last LOT_SIZE filter and as tick size the value of its
    last PRICE_FILTER filter, the empty string when there is none. *)
Theorem symbolFiltersOf_spec (symbol : string) (exchangeInfo : ExchangeInfo) :
  symbolFiltersOf symbol exchangeInfo =
  match Symbols exchangeInfo with
  | [] => Err (String.append "symbol " (String.append symbol " not found"))
  | symbolInfo :: _ =>
      Ok {| StepSize := lastFilterValue "LOT_SIZE" filterStepSize (Filters symbolInfo);
            TickSize := lastFilterValue "PRICE_FILTER" filterTickSize (Filters symbolInfo) |}
  end.
Proof.
  unfold symbolFiltersOf, lastFilterValue.
  destruct (Symbols exchangeInfo) as [|symbolInfo rest]; [reflexivity|].
  destruct (fold_applyFilter (Filters symbolInfo) {| StepSize := ""; TickSize := "" |})
    as [Hstep Htick].
  destruct (fold_left applyFilter _ _) as [step tick]. cbn [StepSize TickSize] in *.
  now rewrite Hstep, Htick.
Qed.

(** X13. A symbol whose exchange info has no PRICE_FILTER filter gets the
    empty tick size, which [strconv.ParseFloat] rejects: [roundToTickSize]
    then returns every price as it was given. *)
Theorem roundToTickSize_without_price_filter (symbol : string) (exchangeInfo : ExchangeInfo)
    (filters : SymbolFilters) (price : float) :
  snd (ParseFloat "") <> None ->
  symbolFiltersOf symbol exchangeInfo = Ok filters ->
  (forall symbolInfo, hd_error (Symbols exchangeInfo) = Some symbolInfo ->
     forallb (fun f => negb (String.eqb (FilterType f) "PRICE_FILTER")) (Filters symbolInfo)
     = true) ->
  roundToTickSize price (TickSize filters) = price.
Proof.
  intros Hparse Hfilters Hnone. apply roundToTickSize_error.
  unfold symbolFiltersOf in Hfilters.
  destruct (Symbols exchangeInfo) as [|symbolInfo rest]; [discriminate Hfilters|].
  specialize (Hnone symbolInfo eq_refl).
  injection Hfilters as Hfilters. subst filters.
  destruct (fold_applyFilter (Filters symbolInfo) {| StepSize := ""; TickSize := "" |})
    as [_ Htick].
  rewrite Htick.
  assert (Hfind : find (fun f => String.eqb (FilterType f) "PRICE_FILTER")
                       (rev (Filters symbolInfo)) = None).
  { destruct (find _ (rev (Filters symbolInfo))) as [f|] eqn:Hf; [|reflexivity].
    apply find_some in Hf. destruct Hf as [Hin Hty].
    apply in_rev in Hin. rewrite forallb_forall in Hnone.
    specialize (Hnone f Hin). rewrite Hty in Hnone. discriminate Hnone. }
  rewrite Hfind. exact Hparse.
Qed.

(** ** The balance and the start *)

Lemma findUSDTBalance_find (balances : list Balance) :
  findUSDTBalance balances =
  match find is_usdt balances with
  | None => Err "USDT balance not found in account"
  | Some balance =>
      match ParseFloat (Free balance) with
      | (_, Some err) => Err (String.append "error parsing USDT balance: " err)
      | (usdtBalance, None) => Ok usdtBalance
      end
  end.
Proof.
  induction balances as [|balance rest IH]; [reflexivity|].
  cbn [findUSDTBalance find]. unfold is_usdt at 1.
  destruct (String.eqb (Asset balance) "USDT"); [reflexivity | exact IH].
Qed.

(** X14. [StartTradingBot] hands a bot to [startBot] exactly when the two
    Binance keys and the CoinMarketCap key are non-empty, the account
    request succeeded, the first USDT entry of the account parses without
    error, and the parsed balance is not below 7.  The bot then has that
    balance as total and as available budget, an investment unit of 7, no
    position, an empty watch list, 1 as next id and the keys as
    credentials. *)
Theorem StartTradingBot_started (apiKey secretKey cmcKey : string)
    (account : Result AccountInfo) (b : TradingBot) :
  StartTradingBot apiKey secretKey cmcKey account = Ok b <->
  apiKey <> "" /\ secretKey <> "" /\ cmcKey <> "" /\
  exists accountInfo balance realBalance,
    account = Ok accountInfo /\
    find is_usdt (Balances accountInfo) = Some balance /\
    ParseFloat (Free balance) = (realBalance, None) /\
    (realBalance <? 7.0) = false /\
    b = {| TotalBudget := realBalance;
           AvailableBudget := realBalance;
           InvestmentAmount := 7.0;
           Positions := [];
           WatchList := [];
           NextPositionID := 1;
           Config := {| APIKey := apiKey; SecretKey := secretKey;
                        BaseURL := "https://api.binance.com" |} |}.
Proof.
  unfold StartTradingBot, getRealUSDTBalance, NewTradingBot. cbn [APIKey SecretKey].
  destruct (String.eqb_spec apiKey "") as [Ha|Ha].
  { cbn [orb]. split; [discriminate | intros [H _]; contradiction]. }
  destruct (String.eqb_spec secretKey "") as [Hs|Hs].
  { cbn [orb]. split; [discriminate | intros [_ [H _]]; contradiction]. }
  cbn [orb].
  destruct (String.eqb_spec cmcKey "") as [Hc|Hc].
  { split; [discriminate | intros [_ [_ [H _]]]; contradiction]. }
  destruct account as [accountInfo|e].
  2:{ split; [discriminate|]. intros [_ [_ [_ [a [x [v [H _]]]]]]]. discriminate H. }
  rewrite findUSDTBalance_find.
  assert (Hback : forall (P : Prop),
            (forall balance realBalance,
               find is_usdt (Balances accountInfo) = Some balance ->
               ParseFloat (Free balance) = (realBalance, None) ->
               (realBalance <? 7.0) = false ->
               b = {| TotalBudget := realBalance;
                      AvailableBudget := realBalance;
                      InvestmentAmount := 7.0;
                      Positions := [];
                      WatchList := [];
                      NextPositionID := 1;
                      Config := {| APIKey := apiKey; SecretKey := secretKey;
                                   BaseURL := "https://api.binance.com" |} |} -> P) ->
            apiKey <> "" /\ secretKey <> "" /\ cmcKey <> "" /\
            (exists accountInfo0 balance realBalance,
               Ok accountInfo = Ok accountInfo0 /\
               find is_usdt (Balances accountInfo0) = Some balance /\
               ParseFloat (Free balance) = (realBalance, None) /\
               (realBalance <? 7.0) = false /\
               b = {| TotalBudget := realBalance;
                      AvailableBudget := realBalance;
                      InvestmentAmount := 7.0;
                      Positions := [];
                      WatchList := [];
                      NextPositionID := 1;
                      Config := {| APIKey := apiKey; SecretKey := secretKey;
                                   BaseURL := "https://api.binance.com" |} |}) -> P).
  { intros P HP [_ [_ [_ [a [x [v [H [H1 [H2 [H3 H4]]]]]]]]]].
    injection H as Heq. subst a. exact (HP x v H1 H2 H3 H4). }
  destruct (find is_usdt (Balances accountInfo)) as [balance|] eqn:Hfind.
  2:{ split; [discriminate|]. apply Hback. intros x v H1 _ _ _. discriminate H1. }
  destruct (ParseFloat (Free balance)) as [realBalance [err|]] eqn:Hparse.
  { split; [discriminate|]. apply Hback. intros x v H1 H2 _ _.
    injection H1 as Heq. subst x. rewrite Hparse in H2. discriminate H2. }
  destruct (realBalance <? 7.0) eqn:Hlow.
  { split; [discriminate|]. apply Hback. intros x v H1 H2 H3 _.
    injection H1 as Heq. subst x. rewrite Hparse in H2. injection H2 as Heq. subst v.
    rewrite Hlow in H3. discriminate H3. }
  split.
  - intros H. injection H as Heq. subst b. repeat (split; [assumption|]).
    exists accountInfo, balance, realBalance. repeat split; assumption.
  - apply Hback. intros x v H1 H2 _ H4.
    injection H1 as Heq. subst x. rewrite Hparse in H2. injection H2 as Heq. subst v.
    now subst b.
Qed.

Lemma executeBuy_sends_buy (coin : OptimizedTicker) (d : float) (s : State) :
  (AvailableBudget (bot s) <? InvestmentAmount (bot s)) = false ->
  credentialsConfigured (bot s) = true ->
  exists rest,
    log (exec (executeBuy exchange coin d) s)
    = log s ++ EvMarketBuy (tickerSymbol coin) (InvestmentAmount (bot s)) :: rest.
Proof.
  intros Hguard Hcred.
  unfold exec. rewrite executeBuy_run, Hguard, executeBuyOrder_run, Hcred.
  destruct (marketBuy exchange (log s) (tickerSymbol coin) (InvestmentAmount (bot s)))
    as [orderResp|e].
  - cbv zeta. cbn [bot log].
    match goal with |- context [attachSellOrder ?x ?c ?q ?p0 ?st] =>
      destruct (attachSellOrder_grows x c q p0 st) as [more Hgrow]; unfold exec in Hgrow;
      destruct (attachSellOrder x c q p0 st) as [p s3] end.
    cbn [snd log] in *. rewrite Hgrow, <- !app_assoc. eexists. reflexivity.
  - cbn [snd log]. exists []. reflexivity.
Qed.

(** X15. A bot that [StartTradingBot] built sends its first order: called
    on that bot, [executeBuy] passes the budget guard and the credentials
    check, and its first request is a market buy of the coin for 7 USDT. *)
Theorem started_bot_sends_buy (apiKey secretKey cmcKey : string)
    (account : Result AccountInfo) (b : TradingBot)
    (coin : OptimizedTicker) (d : float) (history : list Event) :
  StartTradingBot apiKey secretKey cmcKey account = Ok b ->
  exists rest,
    log (exec (executeBuy exchange coin d) {| bot := b; log := history |})
    = history ++ EvMarketBuy (tickerSymbol coin) 7.0 :: rest.
Proof.
  intros Hstart.
  unfold StartTradingBot, NewTradingBot in Hstart. cbn [APIKey SecretKey] in Hstart.
  destruct (String.eqb apiKey "" || String.eqb secretKey "")%bool eqn:Hkeys;
    [discriminate Hstart|].
  destruct (String.eqb cmcKey ""); [discriminate Hstart|].
  destruct (getRealUSDTBalance apiKey secretKey account) as [realBalance|e];
    [|discriminate Hstart].
  destruct (realBalance <? 7.0) eqn:Hlow; [discriminate Hstart|].
  injection Hstart as <-.
  apply (executeBuy_sends_buy coin d
           {| bot := {| TotalBudget := realBalance; AvailableBudget := realBalance;
                        InvestmentAmount := 7.0; Positions := []; WatchList := [];
                        NextPositionID := 1;
                        Config := {| APIKey := apiKey; SecretKey := secretKey;
                                     BaseURL := "https://api.binance.com" |} |};
              log := history |}).
  - exact Hlow.
  - unfold credentialsConfigured. cbn [bot Config APIKey SecretKey]. now rewrite Hkeys.
Qed.

End FetchAndStart.

(** * Concrete runs *)

Local Open Scope float_scope.

(** Scenario C of the specification: 5 USDT left, 7 needed. *)
Lemma executeBuy_insufficient_funds_witness :
  (AvailableBudget (bot (sampleState 7 5)) <? InvestmentAmount (bot (sampleState 7 5))) = true /\
  (executeBuy happyExchange coinABC (-7.0) (sampleState 7 5) = (tt, sampleState 7 5) /\
   gateway_calls (log (exec (executeBuy happyExchange coinABC (-7.0)) (sampleState 7 5)))
   = gateway_calls (log (sampleState 7 5))).
Proof.
  split; [reflexivity|].
  apply (executeBuy_insufficient_funds happyExchange coinABC (-7.0) (sampleState 7 5)).
  reflexivity.
Defined.

Lemma executeBuy_buy_error_witness :
  (AvailableBudget (bot (sampleState 7 7)) <? InvestmentAmount (bot (sampleState 7 7))) = false /\
  eval (executeBuyOrder refusingExchange (tickerSymbol coinABC)
          (InvestmentAmount (bot (sampleState 7 7)))) (sampleState 7 7)
    = Err "buy order failed with status 400" /\
  (bot (exec (executeBuy refusingExchange coinABC (-7.0)) (sampleState 7 7))
     = bot (sampleState 7 7) /\
   log (exec (executeBuy refusingExchange coinABC (-7.0)) (sampleState 7 7)) =
   log (exec (executeBuyOrder refusingExchange (tickerSymbol coinABC)
                (InvestmentAmount (bot (sampleState 7 7)))) (sampleState 7 7))).
Proof.
  split; [reflexivity|]. split; [reflexivity|].
  apply (executeBuy_buy_error refusingExchange coinABC (-7.0) (sampleState 7 7)
           "buy order failed with status 400"); reflexivity.
Defined.

(** Scenario A of the specification: one unit left, one buy, budget 0. *)
Lemma executeBuy_accepted_witness :
  (AvailableBudget (bot (sampleState 7 7)) <? InvestmentAmount (bot (sampleState 7 7))) = false /\
  eval (executeBuyOrder happyExchange (tickerSymbol coinABC)
          (InvestmentAmount (bot (sampleState 7 7)))) (sampleState 7 7) = Ok filledOrder /\
  exists position,
    bot (exec (executeBuy happyExchange coinABC (-7.0)) (sampleState 7 7))
      = recordedBot (bot (sampleState 7 7)) position /\
    ID position = 1%Z.
Proof.
  split; [reflexivity|]. split; [reflexivity|].
  destruct (executeBuy_accepted happyExchange coinABC (-7.0) (sampleState 7 7) filledOrder
              eq_refl eq_refl) as [position [Hbot [_ [_ [_ [_ [_ [_ [Hid _]]]]]]]]].
  exists position. split; [exact Hbot | exact Hid].
Defined.

Lemma placeSellWithRetry_spec_witness :
  credentialsConfigured (bot (sampleState 7 7)) = true /\
  placeSellWithRetry flakyExchange maxRetries "ABCUSDT" 0.75 10.5 (sampleState 7 7) =
  (Ok (sampleOrder 2002 "0" []),
   {| bot := bot (sampleState 7 7);
      log := [EvLimitSell "ABCUSDT" 0.75 10.5; EvSleep 2;
              EvLimitSell "ABCUSDT" 0.75 10.5; EvSleep 2;
              EvLimitSell "ABCUSDT" 0.75 10.5] |}).
Proof.
  split; [reflexivity|].
  destruct (placeSellWithRetry_spec flakyExchange "ABCUSDT" 0.75 10.5 (sampleState 7 7) eq_refl)
    as [_ [_ [_ [_ [Hthird _]]]]].
  exact (Hthird "timeout"%string "timeout"%string (sampleOrder 2002 "0" [])
           eq_refl eq_refl eq_refl).
Defined.

Lemma goRuntime_empty : snd (ParseFloat (Runtime := goRuntime) "") <> None.
Proof. discriminate. Qed.

Lemma roundToTickSize_noop_witness :
  snd (ParseFloat (Runtime := goRuntime) "") <> None /\
  ParseFloat (Runtime := goRuntime) "0" = (0, None) /\
  roundToTickSize 1.25 "" = 1.25 /\
  roundToTickSize 1.25 "0" = 1.25.
Proof.
  split; [exact goRuntime_empty|]. split; [reflexivity|].
  destruct (roundToTickSize_noop (RT := goRuntime) 1.25 goRuntime_empty eq_refl)
    as [_ [_ [Hempty Hzero]]].
  split; [exact Hempty | exact Hzero].
Defined.



(** ** Where the code and the specification part *)

(** A drop of exactly 10 percent is reported as RISKY: nothing is bought. *)
Lemma analyzeCoin_at_minus_ten :
  signals (log (exec (analyzeCoin happyExchange (coinAt (-10.0))) (sampleState 7 7)))
    = [RISKY] /\
  bot (exec (analyzeCoin happyExchange (coinAt (-10.0))) (sampleState 7 7))
    = bot (sampleState 7 7) /\
  gateway_calls (log (exec (analyzeCoin happyExchange (coinAt (-10.0))) (sampleState 7 7)))
    = O.
Proof. repeat split. Qed.

(** A drop of exactly 5 percent is bought. *)
Lemma analyzeCoin_at_minus_five :
  signals (log (exec (analyzeCoin happyExchange (coinAt (-5.0))) (sampleState 7 7)))
    = [BUY] /\
  List.length (Positions (bot (exec (analyzeCoin happyExchange (coinAt (-5.0)))
                                 (sampleState 7 7)))) = 1%nat.
Proof. split; vm_compute; reflexivity. Qed.


(** With a budget of 1e17 one accepted buy appends its position and the
    available budget has not moved: what was subtracted is not the
    investment unit. *)
Lemma executeBuy_accepted_rounding :
  let s := sampleState 1e17 1e17 in
  let b' := bot (exec (executeBuy happyExchange coinABC (-7.0)) s) in
  (AvailableBudget (bot s) <? InvestmentAmount (bot s)) = false /\
  eval (executeBuyOrder happyExchange (tickerSymbol coinABC) (InvestmentAmount (bot s))) s
    = Ok filledOrder /\
  List.length (Positions b') = 1%nat /\
  InvestmentAmount (bot s) = 7 /\
  AvailableBudget b' = AvailableBudget (bot s).
Proof. vm_compute. repeat split. Qed.

(** At the largest [int64] the id counter wraps to the smallest one. *)
Lemma executeBuy_accepted_id_wrap :
  let s := {| bot := {| TotalBudget := 21; AvailableBudget := 21; InvestmentAmount := 7;
                        Positions := []; WatchList := [];
                        NextPositionID := int64_max; Config := sampleConfig |};
              log := [] |} in
  let b' := bot (exec (executeBuy happyExchange coinABC (-7.0)) s) in
  map ID (Positions b') = [int64_max] /\ NextPositionID b' = int64_min.
Proof. vm_compute. repeat split. Qed.


(** A negative price is rounded toward zero, not to the nearest tick, and
    normalizing again moves it once more. *)
Lemma roundToTickSize_negative_price :
  roundToTickSize (-3.0) "1" = -2.0 /\
  roundToTickSize (roundToTickSize (-3.0) "1") "1" = -1.0 /\
  roundToTickSize (roundToTickSize (-3.0) "1") "1" <> roundToTickSize (-3.0) "1".
Proof.
  split; [vm_compute; reflexivity|]. split; [vm_compute; reflexivity|].
  intros H. apply (f_equal (fun f => f =? -1.0)) in H. vm_compute in H. discriminate H.
Qed.

(** C6, where the code departs from it.  An executed quantity that does not
    parse is taken as 0 and nothing is reported: the position is created with
    quantity 0, the fill price falls back to the snapshot's last price, and
    the budget is spent. *)
Lemma executeBuy_unparsable_quantity :
  snd (ParseFloat (ExecutedQty (sampleOrder 1001 "abc" []))) <> None /\
  exists p,
    Positions (bot (exec (executeBuy garbledExchange coinABC (-7.0)) (sampleState 7 7)))
      = [p] /\
    Quantity p = 0 /\ BuyPrice p = 10.0 /\
    AvailableBudget (bot (exec (executeBuy garbledExchange coinABC (-7.0))
                            (sampleState 7 7))) = 0.
Proof.
  split; [discriminate|]. vm_compute. eexists. repeat split.
Qed.

(** One unparsable fill price among two does not trigger the fallback: it
    enters the average as 0. *)
Lemma averageFillPrice_unparsable_fill :
  averageFillPrice
    (sampleOrder 1001 "2" [sampleFill "10" "1"; sampleFill "abc" "1"]) coinABC = 5.0.
Proof. vm_compute. reflexivity. Qed.

(** A price of 10.375 on a tick of 0.25: 42 ticks, 10.5, and 10.5 again. *)
Lemma roundToTickSize_idempotent_witness :
  ParseFloat (Runtime := goRuntime) "0.25" = (0.25, None) /\
  classify 0.25 = PNormal /\
  (0 <= int64_of_float (10.375 / 0.25 + 0.5) < 2 ^ 48)%Z /\
  is_finite (roundToTickSize 10.375 "0.25") = true /\
  roundToTickSize (roundToTickSize 10.375 "0.25") "0.25" = roundToTickSize 10.375 "0.25".
Proof.
  assert (Hparse : ParseFloat (Runtime := goRuntime) "0.25" = (0.25, None))
    by (vm_compute; reflexivity).
  assert (Hclass : classify 0.25 = PNormal) by reflexivity.
  assert (Hcount : (0 <= int64_of_float (RT := goRuntime) (10.375 / 0.25 + 0.5) < 2 ^ 48)%Z)
    by (vm_compute; split; [discriminate | reflexivity]).
  assert (Hfin : is_finite (roundToTickSize 10.375 "0.25") = true)
    by (vm_compute; reflexivity).
  split; [exact Hparse|]. split; [exact Hclass|]. split; [exact Hcount|].
  split; [exact Hfin|].
  exact (roundToTickSize_idempotent (RT := goRuntime) 10.375 "0.25" 0.25
           Hparse Hclass Hcount Hfin).
Defined.

(** At a large tick count (here about 8e15) a non-negative price is not a
    fixed point either: the quotient is no longer within half a tick of the
    count. *)
Lemma roundToTickSize_large_tick_count :
  roundToTickSize 5411230195036730.0 "0.674995722544836" = 5411230195036731.0 /\
  roundToTickSize 5411230195036731.0 "0.674995722544836" = 5411230195036732.0.
Proof. split; vm_compute; reflexivity. Qed.

(** ** The rest of the cycle *)

(** Two watched coins, none in the BUY zone. *)
Lemma analyzeTradingOpportunities_idle_witness :
  forallb (fun coin => negb (inBuyZone (PriceChangePercent coin)))
    (WatchList (bot (watchingState 21 21 [coinAt (-3.0); coinAt (-12.0)]))) = true /\
  (bot (exec (analyzeTradingOpportunities happyExchange)
          (watchingState 21 21 [coinAt (-3.0); coinAt (-12.0)]))
   = bot (watchingState 21 21 [coinAt (-3.0); coinAt (-12.0)]) /\
   gateway_calls (log (exec (analyzeTradingOpportunities happyExchange)
                         (watchingState 21 21 [coinAt (-3.0); coinAt (-12.0)])))
   = gateway_calls (log (watchingState 21 21 [coinAt (-3.0); coinAt (-12.0)]))).
Proof.
  split; [reflexivity|].
  apply (analyzeTradingOpportunities_idle happyExchange
           (watchingState 21 21 [coinAt (-3.0); coinAt (-12.0)])).
  reflexivity.
Defined.

(** A coin of the BUY zone, and 5 USDT left. *)
Lemma analyzeTradingOpportunities_cannot_buy_witness :
  (AvailableBudget (bot (watchingState 7 5 [coinABC]))
   <? InvestmentAmount (bot (watchingState 7 5 [coinABC]))) = true /\
  (bot (exec (analyzeTradingOpportunities happyExchange) (watchingState 7 5 [coinABC]))
   = bot (watchingState 7 5 [coinABC]) /\
   gateway_calls (log (exec (analyzeTradingOpportunities happyExchange)
                         (watchingState 7 5 [coinABC])))
   = gateway_calls (log (watchingState 7 5 [coinABC]))).
Proof.
  split; [reflexivity|].
  apply (analyzeTradingOpportunities_cannot_buy happyExchange (watchingState 7 5 [coinABC])).
  left. reflexivity.
Defined.

(** Two coins of the BUY zone and one outside, with budget for both. *)
Lemma analyzeTradingOpportunities_ids_witness :
  idsIncreasingBelow
    (Positions (bot (watchingState 21 21 [coinABC; coinAt (-3.0); coinAt (-6.0)]))) 1 /\
  NoDup (map ID (Positions (bot (exec (analyzeTradingOpportunities happyExchange)
                                   (watchingState 21 21
                                      [coinABC; coinAt (-3.0); coinAt (-6.0)]))))) /\
  NextPositionID (bot (exec (analyzeTradingOpportunities happyExchange)
                         (watchingState 21 21 [coinABC; coinAt (-3.0); coinAt (-6.0)])))
  = 3%Z.
Proof.
  split; [exact I|].
  destruct (analyzeTradingOpportunities_ids happyExchange
              (watchingState 21 21 [coinABC; coinAt (-3.0); coinAt (-6.0)]))
    as [_ [Hnodup Hnext]].
  - apply Z.leb_le. reflexivity.
  - apply Z.leb_le. reflexivity.
  - exact I.
  - split; [exact Hnodup|]. rewrite Hnext. reflexivity.
Defined.

(** One cycle on a response that lists a falling coin and a stablecoin. *)
Lemma runTradingCycle_buys_from_top20_witness :
  StatusErrorCode sampleResponse = 0%Z /\
  exists added,
    Positions (bot (exec (runTradingCycle happyExchange (tickersOfResponse sampleResponse))
                      (sampleState 21 21)))
    = Positions (bot (sampleState 21 21)) ++ added /\
    Forall (fun p =>
              exists coin, In coin (firstn 20 (Data sampleResponse)) /\
                Symbol p = String.append (cmcSymbol coin) "USDT" /\
                DropPercentage p = QuotePercentChange24h (QuoteUSDOf coin) /\
                inBuyZone (QuotePercentChange24h (QuoteUSDOf coin)) = true) added.
Proof.
  split; [reflexivity|].
  apply (runTradingCycle_buys_from_top20 happyExchange sampleResponse (sampleState 21 21)).
  reflexivity.
Defined.

(** A symbol with a LOT_SIZE filter only. *)
Lemma roundToTickSize_without_price_filter_witness :
  symbolFiltersOf "ABCUSDT" sampleExchangeInfo = Ok {| StepSize := "0.01"; TickSize := "" |} /\
  roundToTickSize (RT := goRuntime) 10.5625 (TickSize {| StepSize := "0.01"; TickSize := "" |})
  = 10.5625.
Proof.
  split; [reflexivity|].
  apply (roundToTickSize_without_price_filter (RT := goRuntime) "ABCUSDT" sampleExchangeInfo).
  - exact goRuntime_empty.
  - reflexivity.
  - intros symbolInfo H. injection H as Heq. subst symbolInfo. reflexivity.
Defined.

(** A start with 25.5 USDT on the account. *)
Lemma started_bot_sends_buy_witness :
  StartTradingBot (RT := goRuntime) "key" "secret" "cmc" (Ok sampleAccount)
  = Ok {| TotalBudget := 25.5; AvailableBudget := 25.5; InvestmentAmount := 7.0;
          Positions := []; WatchList := []; NextPositionID := 1;
          Config := {| APIKey := "key"; SecretKey := "secret";
                       BaseURL := "https://api.binance.com" |} |} /\
  exists rest,
    log (exec (executeBuy (RT := goRuntime) happyExchange coinABC (-7.0))
           {| bot := {| TotalBudget := 25.5; AvailableBudget := 25.5;
                        InvestmentAmount := 7.0;
                        Positions := []; WatchList := []; NextPositionID := 1;
                        Config := {| APIKey := "key"; SecretKey := "secret";
                                     BaseURL := "https://api.binance.com" |} |};
              log := [] |})
    = [] ++ EvMarketBuy (tickerSymbol coinABC) 7.0 :: rest.
Proof.
  split; [vm_compute; reflexivity|].
  apply (started_bot_sends_buy (RT := goRuntime) happyExchange "key" "secret" "cmc"
           (Ok sampleAccount)).
  vm_compute. reflexivity.
Defined.
